(** * Zappix + Aldea AI demo: the web client and the session contract

    A shallow embedding of the TypeScript sources of the front end
    ([lib/utils], [lib/api], the [FormField] and [SignaturePad]
    components, the home page and the form page), together with a model of
    the session back end, whose Python sources are not part of the tree
    and which is therefore written down from the specification.

    Conventions.
    - A JavaScript string is a [string]: the sequence of its UTF-8 bytes.
      The sources only test strings for emptiness, compare them, append
      them and look at the ASCII digits in them; a digit is one byte in
      UTF-8 and one code unit in UTF-16, and no byte of a longer UTF-8
      sequence is a digit, so nothing below depends on the encoding.
    - A promise is modelled by the way it settles ([Completion]); the
      network is an argument ([FetchOutcome]).
    - A React component is a function from its state to the tree it
      renders; only the parts of the tree that carry data or control are
      kept, decoration (class names, animation) is left out. *)

From Stdlib Require Import Ascii.
From stdpp Require Import base option list strings gmap.

(** ** JavaScript values *)

Module Js.

(** The values that cross the HTTP boundary or are read from an object.
    [JUndefined] is what reading a missing property gives. Arrays occur
    in none of the interfaces of [lib/api] and are left out. *)
#[warnings="-register-all"]
Inductive JsValue : Type :=
  | JUndefined
  | JNull
  | JBool (b : bool)
  | JNum (n : Z)
  | JStr (s : string)
  | JObj (fields : list (string * JsValue)).

(** An empty string is the only falsy string. *)
Definition truthy_string (s : string) : bool :=
  match s with
  | EmptyString => false
  | String _ _ => true
  end.

(** [ToBoolean]: what [!v], [v || w] and [v ? a : b] look at. *)
Definition truthy (v : JsValue) : bool :=
  match v with
  | JUndefined | JNull => false
  | JBool b => b
  | JNum n => negb (n =? 0)%Z
  | JStr s => truthy_string s
  | JObj _ => true
  end.

(** A state of type [string | null]. *)
Definition truthy_opt (v : option string) : bool :=
  match v with
  | Some s => truthy_string s
  | None => false
  end.

(** Lookup of a key among the properties of an object. An object holds a
    key at most once; of a list that repeats a key, the first binding is
    the one read. *)
Fixpoint assoc {A : Type} (k : string) (l : list (string * A)) : option A :=
  match l with
  | [] => None
  | (k', v) :: r => if String.eqb k k' then Some v else assoc k r
  end.

(** Property read [o.k]: [undefined] when the property is missing or when
    [o] is a primitive. *)
Definition get (k : string) (o : JsValue) : JsValue :=
  match o with
  | JObj fields => default JUndefined (assoc k fields)
  | _ => JUndefined
  end.

(** A value of type [string | null]. *)
Definition of_nullable (v : option string) : JsValue :=
  match v with
  | Some s => JStr s
  | None => JNull
  end.

Definition keys {A : Type} (l : list (string * A)) : list string := l.*1.

(** How a promise settles: it is fulfilled with a value or rejected with
    the message of the [Error] thrown. *)
Inductive Completion (A : Type) : Type :=
  | Return (a : A)
  | Throw (message : string).
Global Arguments Return {A} a.
Global Arguments Throw {A} message.

End Js.
Import Js.

(** ** [lib/utils] *)

Module Utils.

(** [\d]: one of the ten ASCII digits. [\D] is its complement. *)
Definition is_digit (c : ascii) : bool :=
  let n := nat_of_ascii c in (48 <=? n) && (n <=? 57).

(** [phone.replace(/\D/g, '')]: every character that is not a digit is
    replaced by the empty string. *)
Fixpoint remove_non_digits (s : string) : string :=
  match s with
  | EmptyString => EmptyString
  | String c r =>
      if is_digit c then String c (remove_non_digits r) else remove_non_digits r
  end.

(** [\d{n}] at the head of [s]: the [n] digits matched and the rest. *)
Fixpoint digits (n : nat) (s : string) : option (string * string) :=
  match n with
  | O => Some (EmptyString, s)
  | S k =>
      match s with
      | EmptyString => None
      | String c r =>
          if is_digit c then
            match digits k r with
            | Some (m, rest) => Some (String c m, rest)
            | None => None
            end
          else None
      end
  end.

(** [(\d{3})(\d{3})(\d{4})$] at the head of [s]: the three groups. *)
Definition match_groups (s : string) : option (string * string * string) :=
  match digits 3 s with
  | None => None
  | Some (g2, s1) =>
      match digits 3 s1 with
      | None => None
      | Some (g3, s2) =>
          match digits 4 s2 with
          | Some (g4, EmptyString) => Some (g2, g3, g4)
          | _ => None
          end
      end
  end.

(** [cleaned.match(/^(\d{1})?(\d{3})(\d{3})(\d{4})$/)]: the groups 1 to 4,
    group 1 being [None] (undefined) when it did not take part. The
    pattern is anchored at both ends, so the only choice is whether the
    optional group takes a digit; it is greedy, so that is tried first. *)
Definition phone_match (s : string)
  : option (option string * string * string * string) :=
  let with_code :=
    match digits 1 s with
    | Some (g1, r) =>
        match match_groups r with
        | Some (g2, g3, g4) => Some (Some g1, g2, g3, g4)
        | None => None
        end
    | None => None
    end in
  match with_code with
  | Some m => Some m
  | None =>
      match match_groups s with
      | Some (g2, g3, g4) => Some (None, g2, g3, g4)
      | None => None
      end
  end.

Definition formatPhoneNumber (phone : string) : string :=
  let cleaned := remove_non_digits phone in
  match phone_match cleaned with
  | Some (g1, g2, g3, g4) =>
      let intlCode :=
        if truthy_opt g1 then "+" +:+ default "" g1 +:+ " " else "" in
      intlCode +:+ "(" +:+ g2 +:+ ") " +:+ g3 +:+ "-" +:+ g4
  | None => phone
  end.

(** What the specification says of [formatPhoneNumber], case by case on
    the digits that are left after the other characters are removed. *)
Definition formatPhoneNumber_spec (phone : string) : string :=
  match filter (λ c, is_digit c = true) (String.list_ascii_of_string phone) with
  | [d1; d2; d3; d4; d5; d6; d7; d8; d9; d10] =>
      String.string_of_list_ascii
        (["("%char; d1; d2; d3; ")"%char; " "%char; d4; d5; d6; "-"%char;
          d7; d8; d9; d10])
  | [d0; d1; d2; d3; d4; d5; d6; d7; d8; d9; d10] =>
      String.string_of_list_ascii
        (["+"%char; d0; " "%char;
          "("%char; d1; d2; d3; ")"%char; " "%char; d4; d5; d6; "-"%char;
          d7; d8; d9; d10])
  | _ => phone
  end.

(** The translation tables, as the object literal has them. *)
Definition translations : list (string * list (string * string)) :=
  [ ("en",
     [ ("title", "Health Assessment Form");
       ("subtitle", "Review and Sign");
       ("description", "Please review your responses below and sign to complete your annual health assessment.");
       ("personalInfo", "Personal Information");
       ("healthResponses", "Health Assessment Responses");
       ("name", "Name");
       ("dateOfBirth", "Date of Birth");
       ("zipCode", "Zip Code");
       ("generalHealth", "General Health Status");
       ("moderateActivities", "Moderate Activities Limitation");
       ("climbingStairs", "Climbing Stairs Limitation");
       ("signature", "Signature");
       ("signatureInstructions", "Please sign in the box below to confirm your responses");
       ("clear", "Clear");
       ("submit", "Submit Form");
       ("submitting", "Submitting...");
       ("success", "Form Submitted Successfully!");
       ("successMessage", "Thank you for completing your health assessment. A confirmation email has been sent.");
       ("error", "Error");
       ("notProvided", "Not provided");
       ("poweredBy", "Powered by") ]);
    ("es",
     [ ("title", "Formulario de Evaluación de Salud");
       ("subtitle", "Revisar y Firmar");
       ("description", "Por favor revise sus respuestas a continuación y firme para completar su evaluación de salud anual.");
       ("personalInfo", "Información Personal");
       ("healthResponses", "Respuestas de Evaluación de Salud");
       ("name", "Nombre");
       ("dateOfBirth", "Fecha de Nacimiento");
       ("zipCode", "Código Postal");
       ("generalHealth", "Estado de Salud General");
       ("moderateActivities", "Limitación en Actividades Moderadas");
       ("climbingStairs", "Limitación al Subir Escaleras");
       ("signature", "Firma");
       ("signatureInstructions", "Por favor firme en el cuadro de abajo para confirmar sus respuestas");
       ("clear", "Borrar");
       ("submit", "Enviar Formulario");
       ("submitting", "Enviando...");
       ("success", "¡Formulario Enviado Exitosamente!");
       ("successMessage", "Gracias por completar su evaluación de salud. Se ha enviado un correo de confirmación.");
       ("error", "Error");
       ("notProvided", "No proporcionado");
       ("poweredBy", "Desarrollado por") ]) ].

(** [type Language = keyof typeof translations]. *)
Definition Language_keys : list string := keys translations.

(** [translations[lang]]: the table of a language, [None] (undefined) for
    a key the object does not have. *)
Definition table_of (lang : string) : option (list (string * string)) :=
  assoc lang translations.

(** [t.key], for a table [t]: [None] is [undefined]. *)
Definition tr (t : list (string * string)) (key : string) : option string :=
  assoc key t.

End Utils.

(** ** [components/FormField] *)

Module FormFieldComponent.

(** [fallback] is optional; [None] is a property left out or passed as
    [undefined], which is when the default of the parameter list applies.
    [label] is what the caller passes, [None] being [undefined]. [value]
    is declared [string | null]; it is the value read from the form data,
    whatever the server sent. [delay] only times the animation and is
    left out. *)
Record FormFieldProps : Type := {
  label : option string;
  value : JsValue;
  fallback : option string;
}.

(** The child of the [form-field-value] element: the value itself, or the
    dimmed italic [span] holding the fallback text. *)
Inductive FieldBody : Type :=
  | ShowValue (v : JsValue)
  | ShowFallback (text : string).

Record Field : Type := {
  field_label : option string;
  field_body : FieldBody;
}.

Definition FormField (props : FormFieldProps) : Field :=
  let fallback := default "Not provided" (fallback props) in
  {| field_label := label props;
     field_body :=
       (* value || <span ...>{fallback}</span> *)
       if truthy (value props) then ShowValue (value props)
       else ShowFallback fallback |}.

End FormFieldComponent.

(** ** [lib/api] *)

Module Api.

(** [process.env.NEXT_PUBLIC_API_URL || 'https://zappix2-backend.aldea.ai'],
    the environment variable being unset ([None]) or a string. *)
Definition API_URL (NEXT_PUBLIC_API_URL : option string) : string :=
  if truthy_opt NEXT_PUBLIC_API_URL then default "" NEXT_PUBLIC_API_URL
  else "https://zappix2-backend.aldea.ai".

(** The types of the interfaces, as far as they are used. *)
Inductive TsType : Type :=
  | TString
  | TBoolean
  | TNullable (t : TsType)           (* t | null *)
  | TOptional (t : TsType)           (* property?: t *)
  | TOneOf (literals : list string). (* 'a' | 'b' *)

Fixpoint has_type (t : TsType) (v : JsValue) : bool :=
  match t, v with
  | TString, JStr _ => true
  | TBoolean, JBool _ => true
  | TNullable _, JNull => true
  | TNullable t', _ => has_type t' v
  | TOptional _, JUndefined => true
  | TOptional t', _ => has_type t' v
  | TOneOf literals, JStr s => bool_decide (s ∈ literals)
  | _, _ => false
  end.

(** An object is of an interface when each declared property has a value
    of its type; as in TypeScript, further properties are allowed. *)
Definition conforms (interface : list (string * TsType)) (v : JsValue) : bool :=
  match v with
  | JObj _ => forallb (λ '(k, t), has_type t (get k v)) interface
  | _ => false
  end.

Definition FormData : list (string * TsType) :=
  [ ("session_id", TString);
    ("first_name", TString);
    ("language", TString);
    ("date_of_birth", TNullable TString);
    ("zip_code", TNullable TString);
    ("general_health", TNullable TString);
    ("general_health_display", TNullable TString);
    ("moderate_activities_limitation", TNullable TString);
    ("moderate_activities_display", TNullable TString);
    ("climbing_stairs_limitation", TNullable TString);
    ("climbing_stairs_display", TNullable TString);
    ("call_completed", TBoolean) ].

Definition OutboundCallRequest : list (string * TsType) :=
  [ ("first_name", TString);
    ("phone_number", TString);
    ("language", TOptional (TOneOf ["en"; "es"])) ].

Definition OutboundCallResponse : list (string * TsType) :=
  [ ("success", TBoolean);
    ("session_id", TString);
    ("message", TString) ].

(** The anonymous result type of [getSessionStatus]. *)
Definition SessionStatus : list (string * TsType) :=
  [ ("session_id", TString);
    ("call_completed", TBoolean);
    ("form_submitted", TBoolean);
    ("opted_in_for_sms", TBoolean) ].

(** What [fetch] is called with. *)
Record Request : Type := {
  method : string;
  url : string;
  headers : list (string * string);
  body : option JsValue;   (* the value given to JSON.stringify *)
}.

(** What [fetch] resolves to. [json] is the parsed body, [None] when the
    body is not JSON and [response.json()] rejects. *)
Record Response : Type := {
  ok : bool;
  status : nat;
  json : option JsValue;
}.

(** [fetch] resolves to a response, whatever its status, or rejects when
    the request itself fails. *)
Inductive FetchOutcome : Type :=
  | Resolved (response : Response)
  | Rejected (message : string).

(** [return response.json()]. *)
Definition response_json (response : Response) : Completion JsValue :=
  match json response with
  | Some v => Return v
  | None => Throw "SyntaxError"
  end.

(** Each function of the client is given in two parts: the request it
    hands to [fetch], and what it does with the way that [fetch] settled.
    An [await] of a rejected promise rethrows, so a rejected [fetch]
    rejects the call with the same message. *)

Section Client.
Variable env : option string.   (* process.env.NEXT_PUBLIC_API_URL *)

Definition getFormData_request (sessionId : string) : Request :=
  {| method := "GET";
     url := API_URL env +:+ "/api/forms/" +:+ sessionId;
     headers := [];
     body := None |}.

Definition submitForm_request (sessionId signature : string) : Request :=
  {| method := "POST";
     url := API_URL env +:+ "/api/forms/" +:+ sessionId +:+ "/submit";
     headers := [("Content-Type", "application/json")];
     body := Some (JObj [("signature", JStr signature)]) |}.

Definition initiateOutboundCall_request (request : JsValue) : Request :=
  {| method := "POST";
     url := API_URL env +:+ "/api/calls/outbound";
     headers := [("Content-Type", "application/json")];
     body := Some request |}.

Definition getSessionStatus_request (sessionId : string) : Request :=
  {| method := "GET";
     url := API_URL env +:+ "/api/forms/" +:+ sessionId +:+ "/status";
     headers := [];
     body := None |}.

End Client.

Definition getFormData (fetched : FetchOutcome) : Completion JsValue :=
  match fetched with
  | Rejected m => Throw m
  | Resolved response =>
      if negb (ok response) then Throw "Failed to fetch form data"
      else response_json response
  end.

Definition submitForm (fetched : FetchOutcome) : Completion JsValue :=
  match fetched with
  | Rejected m => Throw m
  | Resolved response =>
      if negb (ok response) then Throw "Failed to submit form"
      else response_json response
  end.

Definition initiateOutboundCall (fetched : FetchOutcome) : Completion JsValue :=
  match fetched with
  | Rejected m => Throw m
  | Resolved response =>
      if negb (ok response) then Throw "Failed to initiate call"
      else response_json response
  end.

Definition getSessionStatus (fetched : FetchOutcome) : Completion JsValue :=
  match fetched with
  | Rejected m => Throw m
  | Resolved response =>
      if negb (ok response) then Throw "Failed to fetch session status"
      else response_json response
  end.

(** The calls the pages make, with their arguments as the caller holds
    them: the signature state of the form page is [string | null]. *)
Inductive Call : Type :=
  | CallGetFormData (sessionId : string)
  | CallSubmitForm (sessionId : string) (signature : option string)
  | CallInitiateOutboundCall (request : JsValue).

End Api.

(** ** [components/SignaturePad] *)

Module SignaturePadComponent.

(** What the handlers ask of the canvas behind [sigRef.current]. *)
Record SignatureCanvas : Type := {
  isEmpty : bool;
  toDataURL : string;   (* toDataURL('image/png') *)
}.

(** What a handler does: the new [hasSignature], whether the canvas was
    cleared, and the argument [onSignature] was called with, if it was. *)
Record Effect : Type := {
  hasSignature : bool;
  cleared : bool;
  onSignature : option (option string);
}.

(** [sigRef] is [None] while the ref is still [null]. *)
Definition handleEnd (sigRef : option SignatureCanvas) (hasSignature0 : bool)
  : Effect :=
  match sigRef with
  | Some canvas =>
      if negb (isEmpty canvas) then
        {| hasSignature := true;
           cleared := false;
           onSignature := Some (Some (toDataURL canvas)) |}
      else
        {| hasSignature := hasSignature0; cleared := false; onSignature := None |}
  | None =>
      {| hasSignature := hasSignature0; cleared := false; onSignature := None |}
  end.

Definition handleClear (sigRef : option SignatureCanvas) (hasSignature0 : bool)
  : Effect :=
  match sigRef with
  | Some _ =>
      {| hasSignature := false; cleared := true; onSignature := Some None |}
  | None =>
      {| hasSignature := hasSignature0; cleared := false; onSignature := None |}
  end.

End SignaturePadComponent.

(** ** [pages/form/[sessionId]]: the form page *)

Module FormPage.
Import Utils FormFieldComponent Api SignaturePadComponent.

(** [router.query.sessionId] is [string | string[] | undefined]. *)
Inductive Query : Type :=
  | QUndefined
  | QString (s : string)
  | QArray (l : list string).

Global Instance Query_eq_dec : EqDecision Query.
Proof. solve_decision. Defined.

(** [sessionId], when [!sessionId || typeof sessionId !== 'string'] is
    false: a string that is not empty. *)
Definition session_string (q : Query) : option string :=
  match q with
  | QString s => if truthy_string s then Some s else None
  | QUndefined | QArray _ => None
  end.

(** The state hooks of the component, and the query it is rendered
    with. *)
Record State : Type := {
  sessionId : Query;
  formData : JsValue;            (* FormData | null *)
  isLoading : bool;
  error : option string;
  signature : option string;
  isSubmitting : bool;
  isSubmitted : bool;
}.

Definition initial : State :=
  {| sessionId := QUndefined;
     formData := JNull;
     isLoading := true;
     error := None;
     signature := None;
     isSubmitting := false;
     isSubmitted := false |}.

Definition setFormData (v : JsValue) (st : State) : State :=
  {| sessionId := sessionId st; formData := v; isLoading := isLoading st;
     error := error st; signature := signature st;
     isSubmitting := isSubmitting st; isSubmitted := isSubmitted st |}.
Definition setIsLoading (b : bool) (st : State) : State :=
  {| sessionId := sessionId st; formData := formData st; isLoading := b;
     error := error st; signature := signature st;
     isSubmitting := isSubmitting st; isSubmitted := isSubmitted st |}.
Definition setError (e : option string) (st : State) : State :=
  {| sessionId := sessionId st; formData := formData st;
     isLoading := isLoading st; error := e; signature := signature st;
     isSubmitting := isSubmitting st; isSubmitted := isSubmitted st |}.
Definition setSignature (v : option string) (st : State) : State :=
  {| sessionId := sessionId st; formData := formData st;
     isLoading := isLoading st; error := error st; signature := v;
     isSubmitting := isSubmitting st; isSubmitted := isSubmitted st |}.
Definition setIsSubmitting (b : bool) (st : State) : State :=
  {| sessionId := sessionId st; formData := formData st;
     isLoading := isLoading st; error := error st; signature := signature st;
     isSubmitting := b; isSubmitted := isSubmitted st |}.
Definition setIsSubmitted (b : bool) (st : State) : State :=
  {| sessionId := sessionId st; formData := formData st;
     isLoading := isLoading st; error := error st; signature := signature st;
     isSubmitting := isSubmitting st; isSubmitted := b |}.
Definition setQuery (q : Query) (st : State) : State :=
  {| sessionId := q; formData := formData st;
     isLoading := isLoading st; error := error st; signature := signature st;
     isSubmitting := isSubmitting st; isSubmitted := isSubmitted st |}.

(** The effect on [sessionId]: nothing without a session string, else
    [fetchData()], which calls [getFormData(sessionId)] and waits. *)
Definition effect (st : State) : list Call :=
  match session_string (sessionId st) with
  | None => []
  | Some sid => [CallGetFormData sid]
  end.

(** [fetchData] once [getFormData] has settled: [try], [catch],
    [finally]. *)
Definition fetchData_settled (data : Completion JsValue) (st : State) : State :=
  let st1 :=
    match data with
    | Return v => setFormData v st
    | Throw _ =>
        setError (Some "Unable to load form data. Please try again later.") st
    end in
  setIsLoading false st1.

(** [handleSubmit] up to its [await]: the early return, or
    [setIsSubmitting(true)] and the call of [submitForm]. The call is
    recorded with the signature as the state holds it. *)
Definition handleSubmit (st : State) : State * list Call :=
  if negb (truthy_opt (signature st)) then (st, [])
  else
    match session_string (sessionId st) with
    | None => (st, [])
    | Some sid =>
        (setIsSubmitting true st, [CallSubmitForm sid (signature st)])
    end.

(** [handleSubmit] once [submitForm] has settled. *)
Definition handleSubmit_settled (r : Completion JsValue) (st : State) : State :=
  let st1 :=
    match r with
    | Return _ => setIsSubmitted true st
    | Throw _ => setError (Some "Failed to submit form. Please try again.") st
    end in
  setIsSubmitting false st1.

(** [(formData?.language as Language) || 'en']. *)
Definition lang (st : State) : JsValue :=
  let l :=
    match formData st with
    | JNull | JUndefined => JUndefined
    | d => get "language" d
    end in
  if truthy l then l else JStr "en".

(** [translations[lang]]. A key that is not a string is converted to one
    ("true", a numeral, "[object Object]"), never to "en" or "es". *)
Definition t (st : State) : option (list (string * string)) :=
  match lang st with
  | JStr s => table_of s
  | _ => None
  end.

(** The form, as far as it shows data or takes input. *)
Record FormView : Type := {
  title : option string;
  subtitle : option string;
  description : option string;
  personalInfo : option string;
  personal_fields : list Field;
  healthResponses : option string;
  health_fields : list Field;
  signature_heading : option string;
  signatureInstructions : option string;
  clearText : option string;
  submit_disabled : bool;
  submit_label : option string;
  poweredBy : option string;
}.

Inductive View : Type :=
  | Loading                                   (* "Loading your form..." *)
  | ErrorView (heading : option string) (message : string)
  | SubmittedView (title message : option string)
  | Form (form : FormView)
  | TypeError.   (* a property of [t] is read while [t] is undefined *)

Definition field (tbl : list (string * string)) (key : string) (v : JsValue)
  : Field :=
  FormField {| label := tr tbl key; value := v;
               fallback := tr tbl "notProvided" |}.

Definition render (st : State) : View :=
  if isLoading st then Loading
  else
    match t st with
    | None => TypeError
    | Some tbl =>
        if truthy_opt (error st) || negb (truthy (formData st)) then
          ErrorView (tr tbl "error")
            (if truthy_opt (error st) then default "" (error st)
             else "Form not found")
        else if isSubmitted st then
          SubmittedView (tr tbl "success") (tr tbl "successMessage")
        else
          let d := formData st in
          Form
            {| title := tr tbl "title";
               subtitle := tr tbl "subtitle";
               description := tr tbl "description";
               personalInfo := tr tbl "personalInfo";
               personal_fields :=
                 [ field tbl "name" (get "first_name" d);
                   field tbl "dateOfBirth" (get "date_of_birth" d);
                   field tbl "zipCode" (get "zip_code" d) ];
               healthResponses := tr tbl "healthResponses";
               health_fields :=
                 [ field tbl "generalHealth" (get "general_health_display" d);
                   field tbl "moderateActivities"
                     (get "moderate_activities_display" d);
                   field tbl "climbingStairs"
                     (get "climbing_stairs_display" d) ];
               signature_heading := tr tbl "signature";
               signatureInstructions := tr tbl "signatureInstructions";
               clearText := tr tbl "clear";
               submit_disabled :=
                 negb (truthy_opt (signature st)) || isSubmitting st;
               submit_label :=
                 if isSubmitting st then tr tbl "submitting"
                 else tr tbl "submit";
               poweredBy := tr tbl "poweredBy" |}
    end.

(** The keys of the table that [render] reads. *)
Definition labels_read : list string :=
  [ "error"; "success"; "successMessage"; "title"; "subtitle"; "description";
    "personalInfo"; "name"; "notProvided"; "dateOfBirth"; "zipCode";
    "healthResponses"; "generalHealth"; "moderateActivities";
    "climbingStairs"; "signature"; "signatureInstructions"; "clear";
    "submitting"; "submit"; "poweredBy" ].

(** *** The page in time

    The component together with the calls it is waiting for, and what
    the browser and the network can make happen to it. *)
Record Page : Type := {
  state : State;
  pad_hasSignature : bool;      (* the state of the signature pad *)
  awaiting : list Call;         (* calls whose [await] has not resumed *)
}.

Inductive Event : Type :=
  | Route (q : Query)
      (* the router gives [sessionId] the value [q]; the effect runs when
         the value changes *)
  | Settle (n : nat) (fetched : FetchOutcome)
      (* the fetch of the n-th call waited for settles *)
  | PadEnd (sigRef : option SignatureCanvas)    (* onEnd of the canvas *)
  | PadClear (sigRef : option SignatureCanvas)  (* click on the clear button *)
  | Submit.                                     (* onSubmit of the form *)

Definition start : Page :=
  {| state := initial; pad_hasSignature := false; awaiting := [] |}.

Definition deliver (e : Effect) (st : State) : State :=
  match onSignature e with
  | Some v => setSignature v st
  | None => st
  end.

(** One event: the page after it, and the calls it made. *)
Definition step (p : Page) (ev : Event) : Page * list Call :=
  match ev with
  | Route q =>
      if decide (q = sessionId (state p)) then (p, [])
      else
        let st := setQuery q (state p) in
        ({| state := st; pad_hasSignature := pad_hasSignature p;
            awaiting := awaiting p ++ effect st |}, effect st)
  | Settle n fetched =>
      match awaiting p !! n with
      | None => (p, [])
      | Some call =>
          let st :=
            match call with
            | CallGetFormData _ =>
                fetchData_settled (getFormData fetched) (state p)
            | CallSubmitForm _ _ =>
                handleSubmit_settled (submitForm fetched) (state p)
            | CallInitiateOutboundCall _ => state p
            end in
          ({| state := st; pad_hasSignature := pad_hasSignature p;
              awaiting := delete n (awaiting p) |}, [])
      end
  | PadEnd sigRef =>
      let e := handleEnd sigRef (pad_hasSignature p) in
      ({| state := deliver e (state p); pad_hasSignature := hasSignature e;
          awaiting := awaiting p |}, [])
  | PadClear sigRef =>
      let e := handleClear sigRef (pad_hasSignature p) in
      ({| state := deliver e (state p); pad_hasSignature := hasSignature e;
          awaiting := awaiting p |}, [])
  | Submit =>
      let '(st, calls) := handleSubmit (state p) in
      ({| state := st; pad_hasSignature := pad_hasSignature p;
          awaiting := awaiting p ++ calls |}, calls)
  end.

(** A sequence of events: the page at the end and all calls made. *)
Fixpoint run (p : Page) (evs : list Event) : Page * list Call :=
  match evs with
  | [] => (p, [])
  | ev :: rest =>
      let '(p1, calls1) := step p ev in
      let '(p2, calls2) := run p1 rest in
      (p2, calls1 ++ calls2)
  end.

(** Whether, in the course of [evs], a call of [submitForm] that the page
    was waiting for settled fulfilled. *)
Fixpoint submit_resolved (p : Page) (evs : list Event) : bool :=
  match evs with
  | [] => false
  | ev :: rest =>
      match ev with
      | Settle n fetched =>
          match awaiting p !! n, submitForm fetched with
          | Some (CallSubmitForm _ _), Return _ => true
          | _, _ => false
          end
      | _ => false
      end
      || submit_resolved (step p ev).1 rest
  end.

End FormPage.

(** ** [pages/index]: the home page *)

Module Home.
Import Api.

(** [{ success; message; sessionId? }], as read from the response. *)
Record Result : Type := {
  success : JsValue;
  message : JsValue;
  result_sessionId : JsValue;
}.

Record State : Type := {
  firstName : string;
  phoneNumber : string;
  language : string;              (* 'en' | 'es' *)
  isLoading : bool;
  result : option Result;
}.

Definition initial : State :=
  {| firstName := ""; phoneNumber := ""; language := "en";
     isLoading := false; result := None |}.

Definition setFirstName (v : string) (st : State) : State :=
  {| firstName := v; phoneNumber := phoneNumber st; language := language st;
     isLoading := isLoading st; result := result st |}.
Definition setPhoneNumber (v : string) (st : State) : State :=
  {| firstName := firstName st; phoneNumber := v; language := language st;
     isLoading := isLoading st; result := result st |}.
Definition setLanguage (v : string) (st : State) : State :=
  {| firstName := firstName st; phoneNumber := phoneNumber st; language := v;
     isLoading := isLoading st; result := result st |}.
Definition setIsLoading (b : bool) (st : State) : State :=
  {| firstName := firstName st; phoneNumber := phoneNumber st;
     language := language st; isLoading := b; result := result st |}.
Definition setResult (r : option Result) (st : State) : State :=
  {| firstName := firstName st; phoneNumber := phoneNumber st;
     language := language st; isLoading := isLoading st; result := r |}.

(** The two language buttons: value and label. *)
Definition language_options : list (string * string) :=
  [ ("en", "English"); ("es", "Español") ].

(** The object [handleSubmit] passes to [initiateOutboundCall]. *)
Definition request_of (st : State) : JsValue :=
  JObj [ ("first_name", JStr (firstName st));
         ("phone_number", JStr (phoneNumber st));
         ("language", JStr (language st)) ].

(** [handleSubmit] up to its [await]. *)
Definition handleSubmit (st : State) : State * list Call :=
  (setResult None (setIsLoading true st),
   [CallInitiateOutboundCall (request_of st)]).

(** [handleSubmit] once [initiateOutboundCall] has settled. *)
Definition handleSubmit_settled (r : Completion JsValue) (st : State) : State :=
  let st1 :=
    match r with
    | Return response =>
        setResult
          (Some {| success := get "success" response;
                   message := get "message" response;
                   result_sessionId := get "session_id" response |}) st
    | Throw _ =>
        setResult
          (Some {| success := JBool false;
                   message := JStr "Failed to initiate call. Please try again.";
                   result_sessionId := JUndefined |}) st
    end in
  setIsLoading false st1.

(** [disabled] of the submit button. *)
Definition submit_disabled (st : State) : bool :=
  isLoading st || negb (truthy_string (firstName st))
  || negb (truthy_string (phoneNumber st)).

Record Page : Type := {
  state : State;
  awaiting : list Call;
}.

Inductive Event : Type :=
  | ChangeFirstName (v : string)       (* onChange of the first input *)
  | ChangePhoneNumber (v : string)     (* onChange of the second input *)
  | ClickLanguage (n : nat)            (* click on the n-th language button *)
  | Submit                             (* the user asks to submit the form *)
  | Settle (n : nat) (fetched : FetchOutcome).

Definition start : Page := {| state := initial; awaiting := [] |}.

(** One event. The form has one submit button and is submitted through
    it, by a click on it or by the Enter key in a field; the browser does
    neither while the button is disabled, so [onSubmit] does not fire
    then. *)
Definition step (p : Page) (ev : Event) : Page * list Call :=
  match ev with
  | ChangeFirstName v =>
      ({| state := setFirstName v (state p); awaiting := awaiting p |}, [])
  | ChangePhoneNumber v =>
      ({| state := setPhoneNumber v (state p); awaiting := awaiting p |}, [])
  | ClickLanguage n =>
      match language_options !! n with
      | Some (v, _) =>
          ({| state := setLanguage v (state p); awaiting := awaiting p |}, [])
      | None => (p, [])
      end
  | Submit =>
      if submit_disabled (state p) then (p, [])
      else
        let '(st, calls) := handleSubmit (state p) in
        ({| state := st; awaiting := awaiting p ++ calls |}, calls)
  | Settle n fetched =>
      match awaiting p !! n with
      | None => (p, [])
      | Some _ =>
          ({| state :=
                handleSubmit_settled (initiateOutboundCall fetched) (state p);
              awaiting := delete n (awaiting p) |}, [])
      end
  end.

Fixpoint run (p : Page) (evs : list Event) : Page * list Call :=
  match evs with
  | [] => (p, [])
  | ev :: rest =>
      let '(p1, calls1) := step p ev in
      let '(p2, calls2) := run p1 rest in
      (p2, calls1 ++ calls2)
  end.

End Home.

(** ** [README]: the table of API endpoints *)

Module Readme.

Definition endpoints : list (string * string * string) :=
  [ ("POST", "/api/calls/outbound", "Initiate an outbound call");
    ("GET", "/api/calls/session/{session_id}", "Get session details");
    ("POST", "/api/calls/sms/{session_id}", "Send SMS with form link");
    ("GET", "/api/forms/{session_id}", "Get pre-populated form data");
    ("POST", "/api/forms/{session_id}/submit", "Submit signed form");
    ("POST", "/api/twilio/voice/{session_id}", "Twilio voice webhook");
    ("WS", "/api/twilio/media-stream/{session_id}", "Real-time audio stream") ].

(** A path of the table with its parameter filled in. *)
Definition instantiate (pre post sessionId : string) : string :=
  pre +:+ sessionId +:+ post.

End Readme.

(** ** The session back end

    The Python back end (session store, authentication matcher, session
    state machine, form endpoints) is not among the sources. What the
    properties below need of it is modelled from the specification,
    sections 3, 4.1, 4.2, 4.5 and 6. *)

Module Backend.

(** Modelled from the spec: the lifecycle phases of section 4.5; the
    state machine that owns them is missing from the sources. *)
Inductive Phase : Type :=
  | INITIATED | RINGING | AUTHENTICATING | ASSESSMENT | OPT_IN
  | OPT_IN_COMPLETE | FORM_REVIEW | SIGNED | SUBMITTED
  | FAILED_AUTH | ABANDONED | CALL_ERROR | EXPIRED.

Global Instance Phase_eq_dec : EqDecision Phase.
Proof. solve_decision. Defined.

(** Modelled from the spec: the three identity facts of section 3 and the
    status each one is marked with; the matcher is missing from the
    sources. *)
Inductive Fact : Type := DateOfBirth | PostalCode | PartialIdentifier.

(** Modelled from the spec: "each marked matched/unmatched/not-yet-
    collected" (section 3); the matcher that sets the marks is missing
    from the sources. *)
Inductive FactStatus : Type := NotCollected | Matched | Unmatched.

Global Instance FactStatus_eq_dec : EqDecision FactStatus.
Proof. solve_decision. Defined.

(** Modelled from the spec: the session entity of section 3 (subject
    info, authentication, phase, handoff, signature and submission) with
    the opt-in answer of section 4.5 and the completion flag of
    section 6; the dialog slots and the timestamps play no part below
    and are left out. *)
Record Session : Type := {
  session_id : string;
  first_name : string;
  phone_number : string;
  language : string;
  date_of_birth : FactStatus;
  postal_code : FactStatus;
  partial_identifier : FactStatus;
  attempts : nat;                  (* failed fact submissions so far *)
  authenticated : bool;
  phase : Phase;
  opted_in : bool;
  call_completed : bool;
  token : option string;
  token_expiry : nat;
  consumed : bool;
  signature : option string;
  submitted : bool;
}.

(** Modelled from the spec: a session as the initiate-call operation
    creates it (section 6, "Triggers INITIATED"). *)
Definition new_session (id first phone lang : string) : Session :=
  {| session_id := id; first_name := first; phone_number := phone;
     language := lang;
     date_of_birth := NotCollected; postal_code := NotCollected;
     partial_identifier := NotCollected;
     attempts := 0; authenticated := false; phase := INITIATED;
     opted_in := false; call_completed := false;
     token := None; token_expiry := 0; consumed := false;
     signature := None; submitted := false |}.

(** Modelled from the spec: the mark of one identity fact of a session
    (section 3); the session record is missing from the sources. *)
Definition fact_status (f : Fact) (s : Session) : FactStatus :=
  match f with
  | DateOfBirth => date_of_birth s
  | PostalCode => postal_code s
  | PartialIdentifier => partial_identifier s
  end.

(** Modelled from the spec: "marked matched" (section 3); the matcher is
    missing from the sources. *)
Definition is_matched (st : FactStatus) : bool :=
  match st with Matched => true | _ => false end.

(** Modelled from the spec: the number of identity facts marked matched,
    which the 2-of-3 rule of section 3 counts; the matcher is missing from
    the sources. *)
Definition matched_count (s : Session) : nat :=
  length (filter (λ f, is_matched (fact_status f s) = true)
            [DateOfBirth; PostalCode; PartialIdentifier]).

(** Modelled from the spec: a phase transition of section 4.5, which
    changes the phase and nothing else; the state machine is missing from
    the sources. *)
Definition with_phase (p : Phase) (s : Session) : Session :=
  {| session_id := session_id s; first_name := first_name s;
     phone_number := phone_number s; language := language s;
     date_of_birth := date_of_birth s; postal_code := postal_code s;
     partial_identifier := partial_identifier s;
     attempts := attempts s; authenticated := authenticated s; phase := p;
     opted_in := opted_in s; call_completed := call_completed s;
     token := token s; token_expiry := token_expiry s;
     consumed := consumed s;
     signature := signature s; submitted := submitted s |}.

(** Modelled from the spec: the matcher's decision for one fact, as the
    state machine applies it (section 4.2, "updated match status for that
    slot plus a recomputed authenticated flag following the 2-of-3 rule")
    together with the failure counter; the matcher is missing from the
    sources. *)
Definition with_fact (f : Fact) (st : FactStatus) (failures : nat)
    (s : Session) : Session :=
  let dob := match f with DateOfBirth => st | _ => date_of_birth s end in
  let zip := match f with PostalCode => st | _ => postal_code s end in
  let pid :=
    match f with PartialIdentifier => st | _ => partial_identifier s end in
  {| session_id := session_id s; first_name := first_name s;
     phone_number := phone_number s; language := language s;
     date_of_birth := dob; postal_code := zip; partial_identifier := pid;
     attempts := failures;
     authenticated :=
       2 <=? length (filter (λ x, is_matched x = true) [dob; zip; pid]);
     phase := phase s;
     opted_in := opted_in s; call_completed := call_completed s;
     token := token s; token_expiry := token_expiry s;
     consumed := consumed s;
     signature := signature s; submitted := submitted s |}.

(** Modelled from the spec: the end of the call at the opt-in question
    (section 4.5): the answer is recorded, the call is complete, and a
    "yes" comes with the token minted for the session. The state machine
    is missing from the sources. *)
Definition with_opt_in (answer : bool) (minted : option (string * nat))
    (s : Session) : Session :=
  {| session_id := session_id s; first_name := first_name s;
     phone_number := phone_number s; language := language s;
     date_of_birth := date_of_birth s; postal_code := postal_code s;
     partial_identifier := partial_identifier s;
     attempts := attempts s; authenticated := authenticated s;
     phase := OPT_IN_COMPLETE;
     opted_in := answer; call_completed := true;
     token := fst <$> minted;
     token_expiry := default 0 (snd <$> minted);
     consumed := false;
     signature := signature s; submitted := submitted s |}.

(** Modelled from the spec: "marking consumed = true happens once,
    atomically with the OPT_IN_COMPLETE -> FORM_REVIEW transition"
    (section 4.6); the token service is missing from the sources. *)
Definition with_consumed (s : Session) : Session :=
  {| session_id := session_id s; first_name := first_name s;
     phone_number := phone_number s; language := language s;
     date_of_birth := date_of_birth s; postal_code := postal_code s;
     partial_identifier := partial_identifier s;
     attempts := attempts s; authenticated := authenticated s;
     phase := FORM_REVIEW;
     opted_in := opted_in s; call_completed := call_completed s;
     token := token s; token_expiry := token_expiry s;
     consumed := true;
     signature := signature s; submitted := submitted s |}.

(** Modelled from the spec: a successful submission (sections 3 and
    4.5): the signature is recorded, [submitted] is set and the phase is
    [SUBMITTED]. The form endpoints are missing from the sources. *)
Definition with_submission (sig : string) (s : Session) : Session :=
  {| session_id := session_id s; first_name := first_name s;
     phone_number := phone_number s; language := language s;
     date_of_birth := date_of_birth s; postal_code := postal_code s;
     partial_identifier := partial_identifier s;
     attempts := attempts s; authenticated := authenticated s;
     phase := SUBMITTED;
     opted_in := opted_in s; call_completed := call_completed s;
     token := token s; token_expiry := token_expiry s;
     consumed := consumed s;
     signature := Some sig; submitted := true |}.

(** Modelled from the spec: what the matcher tells the state machine
    (sections 4.2 and 4.5); the matcher is missing from the sources. *)
Inductive MatcherSignal : Type := CONTINUE | AUTHENTICATED | LOCKED.

(** Modelled from the spec: the two ways submit-form fails (section 6;
    "phase-mismatch error" in scenario E); the form endpoints are missing
    from the sources. *)
Inductive SubmitError : Type := NoValidSignature | PhaseMismatch.

(** Modelled from the spec: the failures of [redeem] (section 4.6); the
    token service is missing from the sources. *)
Inductive RedeemError : Type := Expired | AlreadyConsumed | NotFound.

Section Policy.

(** The normalisation of a spoken value (postal code to five digits, date
    to a canonical calendar form), [None] when it fails; the known-correct
    value of each fact, in normal form; and what makes a signature
    artifact valid. The specification leaves all three open. *)
Variable normalize : Fact → string → option string.
Variable known : Fact → string.
Variable valid_signature : string → bool.

(** Modelled from the spec: the comparison of section 4.2, "normalization
    failures count as non-matches, not errors". *)
Definition fact_matches (f : Fact) (spoken : string) : bool :=
  match normalize f spoken with
  | Some v => String.eqb v (known f)
  | None => false
  end.

(** Modelled from the spec: the authentication matcher of section 4.2.
    It marks the fact matched or unmatched, recomputes [authenticated] by
    the 2-of-3 rule, counts a failed submission, and signals [LOCKED]
    after three cumulative failures. *)
Definition submit_fact (s : Session) (f : Fact) (spoken : string)
  : Session * MatcherSignal :=
  let hit := fact_matches f spoken in
  let failures := if hit then attempts s else S (attempts s) in
  let s' := with_fact f (if hit then Matched else Unmatched) failures s in
  (s', if 3 <=? failures then LOCKED
       else if authenticated s' then AUTHENTICATED
       else CONTINUE).

(** Modelled from the spec: the submit-form operation of section 6 and the
    invariant of section 3 on [submitted]. It "fails if no valid signature
    or if phase is not FORM_REVIEW"; otherwise the session goes from
    [FORM_REVIEW] to [SUBMITTED] with the signature recorded. *)
Definition submit_form (s : Session) (sig : option string)
  : Session + SubmitError :=
  if decide (phase s = FORM_REVIEW) then
    match sig with
    | Some v =>
        if valid_signature v then inl (with_submission v s)
        else inr NoValidSignature
    | None => inr NoValidSignature
    end
  else inr PhaseMismatch.

(** Modelled from the spec: [redeem] of section 4.6 with the validity
    rule of section 3, on the session the token is bound to. *)
Definition redeem (s : Session) (tok : string) (now : nat)
  : Session + RedeemError :=
  match token s with
  | Some t =>
      if negb (String.eqb t tok) then inr NotFound
      else if consumed s then inr AlreadyConsumed
      else if negb (now <? token_expiry s) then inr Expired
      else if decide (phase s = OPT_IN_COMPLETE) then inl (with_consumed s)
      else inr NotFound
  | None => inr NotFound
  end.

(** Modelled from the spec: what can happen to a session. *)
Inductive Event : Type :=
  | CallPlaced                       (* INITIATED -> RINGING *)
  | CarrierFailure                   (* -> CALL_ERROR *)
  | Answered                         (* RINGING -> AUTHENTICATING *)
  | FactSpoken (f : Fact) (spoken : string)
  | AssessmentDone                   (* ASSESSMENT -> OPT_IN *)
  | SecondNoInput                    (* -> ABANDONED *)
  | OptInAnswer (answer : bool) (tok : string) (expiry : nat)
  | TokenPresented (tok : string) (now : nat)
  | TokenLapsed                      (* -> EXPIRED *)
  | FormSubmitted (sig : option string).

(** Modelled from the spec: the transition rules of section 4.5. An event
    that has no rule in the current phase leaves the session as it is. *)
Definition apply_event (s : Session) (ev : Event) : Session :=
  match ev, phase s with
  | CallPlaced, INITIATED => with_phase RINGING s
  | CarrierFailure, (INITIATED | RINGING | AUTHENTICATING | ASSESSMENT | OPT_IN) =>
      with_phase CALL_ERROR s
  | Answered, RINGING => with_phase AUTHENTICATING s
  | FactSpoken f spoken, AUTHENTICATING =>
      match submit_fact s f spoken with
      | (s', LOCKED) => with_phase FAILED_AUTH s'
      | (s', AUTHENTICATED) => with_phase ASSESSMENT s'
      | (s', CONTINUE) => s'
      end
  | AssessmentDone, ASSESSMENT => with_phase OPT_IN s
  | SecondNoInput, (AUTHENTICATING | ASSESSMENT | OPT_IN) =>
      with_phase ABANDONED s
  | OptInAnswer answer tok expiry, OPT_IN =>
      with_opt_in answer (if answer then Some (tok, expiry) else None) s
  | TokenPresented tok now, _ =>
      match redeem s tok now with
      | inl s' => s'
      | inr _ => s
      end
  | TokenLapsed, (OPT_IN_COMPLETE | FORM_REVIEW) => with_phase EXPIRED s
  | FormSubmitted sig, _ =>
      match submit_form s sig with
      | inl s' => s'
      | inr _ => s
      end
  | _, _ => s
  end.

(** Modelled from the spec: a sequence of events, applied in order by
    the state machine, which is missing from the sources. *)
Definition apply_events (s : Session) (evs : list Event) : Session :=
  foldl apply_event s evs.

End Policy.

(** Modelled from the spec: the result of the session-status query of
    section 6, "{session_id, call_completed, form_submitted,
    opted_in_for_sms}"; the endpoint is missing from the sources. *)
Definition status_of (s : Session) : JsValue :=
  JObj [ ("session_id", JStr (session_id s));
         ("call_completed", JBool (call_completed s));
         ("form_submitted", JBool (submitted s));
         ("opted_in_for_sms", JBool (opted_in s)) ].

(** Modelled from the spec: the session-status query over the store of
    section 4.1 ([get(id) -> Session | NotFound]); an unknown id is
    answered with a response that is not [ok]. The endpoint is missing
    from the sources. *)
Definition session_status (store : gmap string Session) (id : string)
  : Api.Response :=
  match store !! id with
  | Some s => {| Api.ok := true; Api.status := 200;
                 Api.json := Some (status_of s) |}
  | None => {| Api.ok := false; Api.status := 404;
               Api.json := Some (JObj [("detail", JStr "Session not found")]) |}
  end.

End Backend.

(** ** Sample data for the examples *)

Module Samples.
Import Api.

(** A body of the [FormData] interface, with exactly its properties. *)
Definition form_data : JsValue :=
  JObj [ ("session_id", JStr "3f2a9c1e");
         ("first_name", JStr "Ana");
         ("language", JStr "es");
         ("date_of_birth", JStr "1980-01-31");
         ("zip_code", JStr "02139");
         ("general_health", JStr "good");
         ("general_health_display", JStr "Good");
         ("moderate_activities_limitation", JNull);
         ("moderate_activities_display", JNull);
         ("climbing_stairs_limitation", JStr "limited_a_little");
         ("climbing_stairs_display", JStr "Yes, limited a little");
         ("call_completed", JBool true) ].

Definition form_data_response : Response :=
  {| ok := true; status := 200; json := Some form_data |}.

(** Two refusals a server can tell apart: the link has expired, the form
    was already submitted. *)
Definition expired_response : Response :=
  {| ok := false; status := 410;
     json := Some (JObj [("detail", JStr "Link expired")]) |}.

Definition already_submitted_response : Response :=
  {| ok := false; status := 409;
     json := Some (JObj [("detail", JStr "Form already submitted")]) |}.

Definition signed_canvas : SignaturePadComponent.SignatureCanvas :=
  {| SignaturePadComponent.isEmpty := false;
     SignaturePadComponent.toDataURL := "data:image/png;base64,iVBORw0KGgo=" |}.

(** The subject opens the link, the form loads, the subject signs and
    submits. *)
Definition sign_and_submit : list FormPage.Event :=
  [ FormPage.Route (FormPage.QString "3f2a9c1e");
    FormPage.Settle 0 (Resolved form_data_response);
    FormPage.PadEnd (Some signed_canvas);
    FormPage.Submit ].

(** A matcher that compares the spoken value as it is. *)
Definition normalize_verbatim (f : Backend.Fact) (spoken : string)
  : option string := Some spoken.

Definition known_facts (f : Backend.Fact) : string :=
  match f with
  | Backend.DateOfBirth => "1980-01-31"
  | Backend.PostalCode => "02139"
  | Backend.PartialIdentifier => "6789"
  end.

Definition any_signature (sig : string) : bool := truthy_string sig.

(** Scenario A of the specification. *)
Definition scenario_A : list Backend.Event :=
  [ Backend.CallPlaced; Backend.Answered;
    Backend.FactSpoken Backend.DateOfBirth "1980-01-31";
    Backend.FactSpoken Backend.PostalCode "02139" ].

End Samples.

(** ** The form page in the browser

    The form of the form page holds no text field: it is submitted by a
    click on its submit button and in no other way, and a button that is
    not on the page, or is disabled, cannot be clicked. *)

Module FormPageBrowser.
Import Api FormPage.

(** The submit button is on the page and enabled: the component took none
    of its three early returns (loading, error, submitted) and [disabled]
    is false. *)
Definition submit_enabled (st : State) : bool :=
  negb (isLoading st)
  && negb (truthy_opt (error st) || negb (truthy (formData st)))
  && negb (isSubmitted st)
  && negb (negb (truthy_opt (signature st)) || isSubmitting st).

(** One event, [onSubmit] firing only through the enabled button. *)
Definition browser_step (p : Page) (ev : Event) : Page * list Call :=
  match ev with
  | Submit => if submit_enabled (state p) then step p Submit else (p, [])
  | _ => step p ev
  end.

Fixpoint browser_run (p : Page) (evs : list Event) : Page * list Call :=
  match evs with
  | [] => (p, [])
  | ev :: rest =>
      let '(p1, calls1) := browser_step p ev in
      let '(p2, calls2) := browser_run p1 rest in
      (p2, calls1 ++ calls2)
  end.

Definition is_submit (c : Call) : bool :=
  match c with
  | CallSubmitForm _ _ => true
  | _ => false
  end.

(** The number of calls of [submitForm] among [calls]. *)
Definition submit_count (calls : list Call) : nat :=
  length (filter (λ c, is_submit c = true) calls).

Definition is_pad_end (ev : Event) : bool :=
  match ev with
  | PadEnd _ => true
  | _ => false
  end.

End FormPageBrowser.

(** ** [scripts/deploy-frontend.sh]: the configuration of the build *)

Module Deploy.

(** ["${VAR:-word}"]: [word] when the variable is unset or empty. *)
Definition or_default (var : option string) (word : string) : string :=
  match var with
  | Some (String c s) => String c s
  | Some EmptyString | None => word
  end.

(** [API_URL="${API_URL:-https://zappix2-backend.aldea.ai}"], which the
    build receives as [NEXT_PUBLIC_API_URL=$API_URL npm run build]. *)
Definition API_URL (var : option string) : string :=
  or_default var "https://zappix2-backend.aldea.ai".

(** The value of [process.env.NEXT_PUBLIC_API_URL] in a client built by
    the script. *)
Definition NEXT_PUBLIC_API_URL (var : option string) : option string :=
  Some (API_URL var).

End Deploy.

(** * Properties *)

Module UtilsFacts.
Import Utils.

Example fmt_ten : formatPhoneNumber "555-123-4567" = "(555) 123-4567".
Proof. reflexivity. Qed.

Example fmt_eleven : formatPhoneNumber "+1 (555) 123-4567" = "+1 (555) 123-4567".
Proof. reflexivity. Qed.

Example fmt_eleven_zero : formatPhoneNumber "05551234567" = "+0 (555) 123-4567".
Proof. reflexivity. Qed.

Example fmt_short : formatPhoneNumber "12-34" = "12-34".
Proof. reflexivity. Qed.

Example fmt_long : formatPhoneNumber "1234567890123" = "1234567890123".
Proof. reflexivity. Qed.


Lemma remove_non_digits_filter (s : string) :
  String.list_ascii_of_string (remove_non_digits s)
  = filter (λ c, is_digit c = true) (String.list_ascii_of_string s).
Proof.
  induction s as [|c s IH]; [reflexivity|].
  cbn [remove_non_digits String.list_ascii_of_string].
  rewrite filter_cons. destruct (is_digit c) eqn:Hc.
  - rewrite decide_True by reflexivity. cbn. by rewrite IH.
  - rewrite decide_False by discriminate. exact IH.
Qed.

Lemma filter_digits_all (l : list ascii) :
  Forall (λ c, is_digit c = true) (filter (λ c, is_digit c = true) l).
Proof. apply list.Forall_forall. intros c Hc. by apply list_elem_of_filter in Hc as [? _]. Qed.

(** One length of the cleaned string: the digit tests of the matcher are
    decided by the hypothesis, the rest is computation. *)
Local Ltac digit_case H :=
  cbn [String.list_ascii_of_string] in H;
  repeat match goal with
         | H : Forall _ (_ :: _) |- _ =>
             let E := fresh "E" in
             apply Forall_cons_1 in H as [E H]; cbn beta in E
         end;
  cbn [String.list_ascii_of_string];
  repeat first
    [ progress cbn [digits]
    | match goal with
      | E : is_digit ?a = true |- context [is_digit ?a] => rewrite E
      end ];
  reflexivity.

(** The regular expression on a string of digits, against the case
    analysis on its length. *)
Lemma phone_match_digits (phone c : string) :
  Forall (λ x, is_digit x = true) (String.list_ascii_of_string c) →
  match phone_match c with
  | Some (g1, g2, g3, g4) =>
      (if truthy_opt g1 then "+" +:+ default "" g1 +:+ " " else "")
      +:+ "(" +:+ g2 +:+ ") " +:+ g3 +:+ "-" +:+ g4
  | None => phone
  end
  = match String.list_ascii_of_string c with
    | [d1; d2; d3; d4; d5; d6; d7; d8; d9; d10] =>
        String.string_of_list_ascii
          (["("%char; d1; d2; d3; ")"%char; " "%char; d4; d5; d6; "-"%char;
            d7; d8; d9; d10])
    | [d0; d1; d2; d3; d4; d5; d6; d7; d8; d9; d10] =>
        String.string_of_list_ascii
          (["+"%char; d0; " "%char;
            "("%char; d1; d2; d3; ")"%char; " "%char; d4; d5; d6; "-"%char;
            d7; d8; d9; d10])
    | _ => phone
    end.
Proof.
  intros H. unfold phone_match, match_groups.
  do 12 (destruct c as [|? c]; [ digit_case H | ]).
  digit_case H.
Qed.

(** C9. For every input string, [formatPhoneNumber] removes the characters
    that are not digits; when exactly ten digits d1..d10 are left it
    returns "(d1d2d3) d4d5d6-d7d8d9d10", when exactly eleven are left it
    returns the same for the last ten with "+<first digit> " in front, and
    for any other number of digits it returns its argument unchanged. *)
Theorem formatPhoneNumber_correct (phone : string) :
  formatPhoneNumber phone = formatPhoneNumber_spec phone.
Proof.
  unfold formatPhoneNumber, formatPhoneNumber_spec.
  rewrite <- remove_non_digits_filter.
  apply phone_match_digits.
  rewrite remove_non_digits_filter. apply filter_digits_all.
Qed.

End UtilsFacts.

(** ** The field component *)

Module FormFieldFacts.
Import FormFieldComponent.

Lemma truthy_of_nullable (v : option string) :
  truthy (of_nullable v) = false ↔ v = None ∨ v = Some "".
Proof.
  destruct v as [[|c s]|]; cbn; split; intros H; try done; auto.
  - destruct H as [H|H]; discriminate.
Qed.

(** C10. [FormField] renders the fallback text ("Not provided" unless
    another is passed) exactly when the value is null or the empty
    string, and renders the value itself for every other string; an empty
    string is displayed as a null is. *)
Theorem FormField_fallback_iff_empty
    (label fallback : option string) (v : option string) :
  let shown :=
    field_body
      (FormField {| label := label; value := of_nullable v;
                    fallback := fallback |}) in
  (shown = ShowFallback (default "Not provided" fallback)
   ↔ v = None ∨ v = Some "")
  ∧ (∀ s, v = Some s → s ≠ "" → shown = ShowValue (JStr s))
  ∧ FormField {| label := label; value := JStr ""; fallback := fallback |}
    = FormField {| label := label; value := JNull; fallback := fallback |}.
Proof.
  cbn zeta. unfold FormField; cbn [value FormFieldComponent.fallback
    FormFieldComponent.label field_body].
  split; [|split].
  - rewrite <- truthy_of_nullable.
    destruct (truthy (of_nullable v)); split; intros H; done.
  - intros s -> Hs. destruct s; done.
  - reflexivity.
Qed.

Lemma FormField_fallback_iff_empty_witness :
  field_body
    (FormField {| label := Some "Zip Code"; value := of_nullable (Some "02139");
                  fallback := None |})
  = ShowValue (JStr "02139")
  ∧ field_body
      (FormField {| label := Some "Zip Code"; value := of_nullable (Some "");
                    fallback := None |})
    = ShowFallback "Not provided".
Proof.
  split.
  - apply (FormField_fallback_iff_empty (Some "Zip Code") None (Some "02139"));
      [reflexivity | discriminate].
  - apply (FormField_fallback_iff_empty (Some "Zip Code") None (Some "")).
    right; reflexivity.
Defined.

End FormFieldFacts.

(** ** The home page *)

Module HomeFacts.
Import Api Home.

(** A call of [initiateOutboundCall] as the home page may make it. *)
Definition well_formed_call (c : Call) : Prop :=
  ∃ first phone lang,
    c = CallInitiateOutboundCall
          (JObj [ ("first_name", JStr first); ("phone_number", JStr phone);
                  ("language", JStr lang) ])
    ∧ first ≠ "" ∧ phone ≠ "" ∧ (lang = "en" ∨ lang = "es").

Definition language_ok (st : State) : Prop :=
  language st = "en" ∨ language st = "es".

Lemma truthy_string_nonempty (s : string) : truthy_string s = true → s ≠ "".
Proof. by destruct s. Qed.

Lemma language_options_values (n : nat) (v l : string) :
  language_options !! n = Some (v, l) → v = "en" ∨ v = "es".
Proof.
  destruct n as [|[|n]]; cbn; intros H; simplify_eq; auto.
Qed.

Lemma handleSubmit_settled_language (r : Completion JsValue) (st : State) :
  language (handleSubmit_settled r st) = language st.
Proof. by destruct r. Qed.

Lemma step_language (p : Page) (ev : Event) :
  language_ok (state p) → language_ok (state (step p ev).1).
Proof.
  unfold language_ok. intros H.
  destruct ev as [v|v|n| |n fetched]; cbn -[handleSubmit_settled]; try done.
  - destruct (language_options !! n) as [[v l]|] eqn:E; [|done].
    cbn. eapply language_options_values, E.
  - destruct (submit_disabled (state p)); done.
  - destruct (awaiting p !! n); [|done].
    cbn -[handleSubmit_settled]. by rewrite handleSubmit_settled_language.
Qed.

Lemma home_step_calls (p : Page) (ev : Event) :
  language_ok (state p) → Forall well_formed_call (step p ev).2.
Proof.
  intros H. destruct ev as [v|v|n| |n fetched]; cbn; try by constructor.
  - destruct (language_options !! n) as [[v l]|]; by constructor.
  - unfold submit_disabled.
    destruct (isLoading (state p)); [by constructor|].
    destruct (truthy_string (firstName (state p))) eqn:Ef; [|by constructor].
    destruct (truthy_string (phoneNumber (state p))) eqn:Ep; [|by constructor].
    cbn. constructor; [|constructor].
    exists (firstName (state p)), (phoneNumber (state p)), (language (state p)).
    auto using truthy_string_nonempty.
  - destruct (awaiting p !! n); by constructor.
Qed.

Lemma home_run_calls (evs : list Event) (p : Page) :
  language_ok (state p) → Forall well_formed_call (run p evs).2.
Proof.
  revert p. induction evs as [|ev evs IH]; intros p H; [by constructor|].
  cbn [run].
  pose proof (home_step_calls p ev H) as Hc. pose proof (step_language p ev H) as Hl.
  destruct (step p ev) as [p1 calls1]. specialize (IH p1 Hl).
  destruct (run p1 evs) as [p2 calls2]. cbn in *.
  by apply Forall_app.
Qed.

Lemma start_language_ok : language_ok (state start).
Proof. by left. Qed.

(** C5. The initiate-call operation takes [{first_name, phone_number,
    language}] and returns [{success, session_id, message}]; for a
    response that is not ok [initiateOutboundCall] throws; and every call
    the home page makes carries a non-empty first name and a non-empty
    phone number. *)
Theorem initiate_call_contract
    (evs : list Event) (env : option string) (request : JsValue)
    (response : Response) :
  Forall
    (λ c, ∃ first phone lang,
        c = CallInitiateOutboundCall
              (JObj [ ("first_name", JStr first); ("phone_number", JStr phone);
                      ("language", JStr lang) ])
        ∧ first ≠ "" ∧ phone ≠ "")
    (run start evs).2
  ∧ keys OutboundCallRequest = ["first_name"; "phone_number"; "language"]
  ∧ keys OutboundCallResponse = ["success"; "session_id"; "message"]
  ∧ initiateOutboundCall_request env request
    = {| method := "POST"; url := API_URL env +:+ "/api/calls/outbound";
         headers := [("Content-Type", "application/json")];
         body := Some request |}
  ∧ (ok response = false →
     initiateOutboundCall (Resolved response) = Throw "Failed to initiate call")
  ∧ (∀ v, ok response = true → json response = Some v →
     conforms OutboundCallResponse v = true →
     initiateOutboundCall (Resolved response) = Return v
     ∧ (∃ b, get "success" v = JBool b)
     ∧ (∃ s, get "session_id" v = JStr s)
     ∧ (∃ s, get "message" v = JStr s)).
Proof.
  split_and!; try done.
  - eapply Forall_impl; [apply home_run_calls, start_language_ok|].
    intros c (first & phone & lang & -> & ? & ? & _). eauto 6.
  - intros Hok. cbn. by rewrite Hok.
  - intros v Hok Hjson Hconf. cbn. rewrite Hok. cbn.
    unfold response_json. rewrite Hjson. split; [done|].
    destruct v as [| | | | |fields]; try discriminate.
    cbn in Hconf. cbn [get].
    destruct (default JUndefined (assoc "success" fields)); try discriminate.
    destruct (default JUndefined (assoc "session_id" fields)); try discriminate.
    destruct (default JUndefined (assoc "message" fields)); try discriminate.
    split_and!; by eexists.
Qed.

Lemma initiate_call_contract_witness :
  initiateOutboundCall
    (Resolved {| ok := false; status := 500; json := Some JNull |})
  = Throw "Failed to initiate call".
Proof.
  by apply (initiate_call_contract [] None JNull
              {| ok := false; status := 500; json := Some JNull |}).
Defined.

End HomeFacts.

(** ** The translation tables *)

Module TranslationFacts.
Import Utils.

Lemma assoc_is_Some {A : Type} (k : string) (l : list (string * A)) :
  is_Some (assoc k l) ↔ k ∈ keys l.
Proof.
  unfold keys. induction l as [|[k' v] l IH]; cbn.
  - split; [by intros [? ?]|by intros ?%elem_of_nil].
  - destruct (String.eqb_spec k k') as [->|Hne].
    + split; [intros _; left|by eauto].
    + rewrite IH. split; [by right|].
      intros [?|?]%elem_of_cons; done.
Qed.

(** C7. The preferred language has two values: the locales of the
    translation object are exactly 'en' and 'es'; the two tables define
    the same keys, among them every label the form page reads; and the
    home page only ever submits 'en' or 'es' as the language. *)
Theorem two_languages_fully_translated
    (evs : list Home.Event) (key : string) :
  Language_keys = ["en"; "es"]
  ∧ (∃ en es,
       table_of "en" = Some en ∧ table_of "es" = Some es
       ∧ (is_Some (tr en key) ↔ is_Some (tr es key))
       ∧ (list_to_set (keys en) : gset string) = list_to_set (keys es)
       ∧ Forall (λ k, is_Some (tr en k) ∧ is_Some (tr es k))
           FormPage.labels_read)
  ∧ Forall
      (λ c, ∃ first phone lang,
          c = Api.CallInitiateOutboundCall
                (JObj [ ("first_name", JStr first);
                        ("phone_number", JStr phone);
                        ("language", JStr lang) ])
          ∧ (lang = "en" ∨ lang = "es"))
      (Home.run Home.start evs).2.
Proof.
  split; [reflexivity|split].
  - eexists _, _. split; [reflexivity|split; [reflexivity|]].
    split; [|split].
    + unfold tr. by rewrite !assoc_is_Some.
    + reflexivity.
    + repeat constructor; by eexists.
  - eapply Forall_impl;
      [apply HomeFacts.home_run_calls, HomeFacts.start_language_ok|].
    intros c (first & phone & lang & -> & _ & _ & ?). eauto 6.
Qed.

End TranslationFacts.

(** ** The API client *)

Module ApiFacts.
Import Api.

Lemma conforms_property (interface : list (string * TsType)) (v : JsValue)
    (k : string) (ty : TsType) :
  conforms interface v = true → (k, ty) ∈ interface →
  has_type ty (get k v) = true.
Proof.
  destruct v; try discriminate. unfold conforms.
  rewrite forallb_forall. intros H Hin.
  apply list_elem_of_In in Hin. exact (H (k, ty) Hin).
Qed.

Lemma has_type_string (v : JsValue) :
  has_type TString v = true → ∃ s, v = JStr s.
Proof. destruct v; try discriminate. by eexists. Qed.

Lemma has_type_boolean (v : JsValue) :
  has_type TBoolean v = true → ∃ b, v = JBool b.
Proof. destruct v; try discriminate. by eexists. Qed.

Lemma has_type_nullable_string (v : JsValue) :
  has_type (TNullable TString) v = true → ∃ o, v = of_nullable o.
Proof.
  destruct v; try discriminate.
  - by exists None.
  - intros _. by eexists (Some _).
Qed.

(** A property is declared by an interface. *)
Local Ltac declared := apply list_elem_of_In; cbn; tauto.

(** C4, as the code has it. For every successful response whose body is
    of the [FormData] interface, [getFormData] returns that body, and it
    holds [session_id], [first_name] and [language] (strings), the
    nullable raw values [date_of_birth], [zip_code], [general_health],
    [moderate_activities_limitation] and [climbing_stairs_limitation],
    the nullable display values [general_health_display],
    [moderate_activities_display] and [climbing_stairs_display], and the
    flag [call_completed]. These twelve are all the interface declares:
    the date of birth and the zip code have no display value. *)
Theorem form_data_projection (response : Response) (v : JsValue) :
  ok response = true → json response = Some v → conforms FormData v = true →
  getFormData (Resolved response) = Return v
  ∧ Forall (λ k, ∃ s, get k v = JStr s)
      ["session_id"; "first_name"; "language"]
  ∧ Forall (λ k, ∃ o, get k v = of_nullable o)
      [ "date_of_birth"; "zip_code"; "general_health";
        "moderate_activities_limitation"; "climbing_stairs_limitation";
        "general_health_display"; "moderate_activities_display";
        "climbing_stairs_display" ]
  ∧ (∃ b, get "call_completed" v = JBool b)
  ∧ keys FormData
    = [ "session_id"; "first_name"; "language"; "date_of_birth"; "zip_code";
        "general_health"; "general_health_display";
        "moderate_activities_limitation"; "moderate_activities_display";
        "climbing_stairs_limitation"; "climbing_stairs_display";
        "call_completed" ].
Proof.
  intros Hok Hjson Hconf. split_and!.
  - cbn. rewrite Hok. cbn. unfold response_json. by rewrite Hjson.
  - repeat constructor; apply has_type_string;
      apply (conforms_property FormData); try done; declared.
  - repeat constructor; apply has_type_nullable_string;
      apply (conforms_property FormData); try done; declared.
  - apply has_type_boolean; apply (conforms_property FormData); [done|].
    declared.
  - reflexivity.
Qed.

Lemma form_data_projection_witness :
  getFormData (Resolved Samples.form_data_response) = Return Samples.form_data.
Proof.
  by apply (form_data_projection Samples.form_data_response Samples.form_data).
Defined.

(** C4, as stated, fails: a successful response of the [FormData]
    interface whose result holds no display value for the date of birth
    nor for the zip code. *)
Lemma form_data_no_display_for_identity_facts :
  ok Samples.form_data_response = true
  ∧ conforms FormData Samples.form_data = true
  ∧ getFormData (Resolved Samples.form_data_response)
    = Return Samples.form_data
  ∧ get "date_of_birth_display" Samples.form_data = JUndefined
  ∧ get "zip_code_display" Samples.form_data = JUndefined
  ∧ ¬ ("date_of_birth_display" ∈ keys FormData)
  ∧ ¬ ("zip_code_display" ∈ keys FormData).
Proof.
  split_and!; try reflexivity;
    intros H%list_elem_of_In; cbn in H; intuition discriminate.
Qed.

End ApiFacts.

(** ** The form page *)

Module FormPageFacts.
Import Utils FormFieldComponent Api SignaturePadComponent FormPage.

(** A call of [submitForm] carries a signature that is a non-empty
    string. *)
Definition signed_call (c : Call) : Prop :=
  match c with
  | CallSubmitForm _ sig => ∃ v, sig = Some v ∧ v ≠ ""
  | _ => True
  end.

Lemma truthy_opt_signed (sig : option string) :
  truthy_opt sig = true → ∃ v, sig = Some v ∧ v ≠ "".
Proof. destruct sig as [[|c s]|]; try discriminate. by eexists. Qed.

Lemma handleSubmit_calls (st : State) : Forall signed_call (handleSubmit st).2.
Proof.
  unfold handleSubmit.
  destruct (truthy_opt (signature st)) eqn:E; cbn; [|by constructor].
  destruct (session_string (sessionId st)); cbn; [|by constructor].
  constructor; [|constructor]. by apply truthy_opt_signed.
Qed.

Lemma effect_calls (st : State) : Forall signed_call (effect st).
Proof. unfold effect. destruct (session_string _); by repeat constructor. Qed.

Lemma form_step_calls (p : Page) (ev : Event) : Forall signed_call (step p ev).2.
Proof.
  destruct ev as [q|n fetched|sigRef|sigRef|]; cbn -[handleSubmit effect].
  - destruct (decide _); [by constructor|apply effect_calls].
  - destruct (awaiting p !! n); by constructor.
  - by constructor.
  - by constructor.
  - pose proof (handleSubmit_calls (state p)) as H.
    by destruct (handleSubmit (state p)).
Qed.

Lemma form_run_calls (evs : list Event) (p : Page) :
  Forall signed_call (run p evs).2.
Proof.
  revert p. induction evs as [|ev evs IH]; intros p; [by constructor|].
  cbn [run]. pose proof (form_step_calls p ev) as Hc.
  destruct (step p ev) as [p1 calls1]. specialize (IH p1).
  destruct (run p1 evs) as [p2 calls2]. by apply Forall_app.
Qed.

(** [isSubmitted] is set by nothing but a fulfilled [submitForm]. *)
Lemma step_isSubmitted (p : Page) (ev : Event) :
  isSubmitted (state (step p ev).1) = true →
  isSubmitted (state p) = true ∨ submit_resolved p [ev] = true.
Proof.
  destruct ev as [q|n fetched|sigRef|sigRef|]; cbn -[handleSubmit submitForm getFormData].
  - destruct (decide _); auto.
  - destruct (awaiting p !! n) as [[sid|sid sig|req]|]; cbn -[submitForm getFormData]; auto.
    + destruct (getFormData fetched); auto.
    + destruct (submitForm fetched); auto.
  - unfold deliver. destruct (onSignature _); auto.
  - unfold deliver. destruct (onSignature _); auto.
  - unfold handleSubmit. destruct (negb _); cbn; auto.
    destruct (session_string _); cbn; auto.
Qed.

Lemma run_isSubmitted (evs : list Event) (p : Page) :
  isSubmitted (state (run p evs).1) = true →
  isSubmitted (state p) = true ∨ submit_resolved p evs = true.
Proof.
  revert p. induction evs as [|ev evs IH]; intros p; [by left|].
  cbn [run submit_resolved].
  pose proof (step_isSubmitted p ev) as Hs. cbn [submit_resolved] in Hs.
  destruct (step p ev) as [p1 calls1] eqn:E1. specialize (IH p1).
  destruct (run p1 evs) as [p2 calls2]. cbn [fst] in *.
  intros H. destruct (IH H) as [H1| ->].
  - destruct (Hs H1) as [?|Hr]; [by left|right].
    rewrite orb_false_r in Hr. by rewrite Hr.
  - right. by rewrite orb_true_r.
Qed.

Lemma submitForm_not_ok (response : Response) :
  ok response = false →
  submitForm (Resolved response) = Throw "Failed to submit form".
Proof. intros H. cbn. by rewrite H. Qed.

Lemma getFormData_not_ok (response : Response) :
  ok response = false →
  getFormData (Resolved response) = Throw "Failed to fetch form data".
Proof. intros H. cbn. by rewrite H. Qed.

(** C8, as the code has it. The submitted view is shown only after
    [submitForm] resolved: along any sequence of events [isSubmitted] is
    true only if a call of [submitForm] settled fulfilled. If
    [submitForm] rejects (any response that is not ok), [isSubmitted]
    keeps its value, the error message is set, and the page shows the
    error view with that message in place of the form; it shows neither
    the form nor the submitted view. *)
Theorem failed_submission_shows_error
    (evs : list Event) (st : State) (response : Response) :
  ok response = false →
  let st' := handleSubmit_settled (submitForm (Resolved response)) st in
  (isSubmitted (state (run start evs).1) = true →
   submit_resolved start evs = true)
  ∧ isSubmitted st' = isSubmitted st
  ∧ error st' = Some "Failed to submit form. Please try again."
  ∧ isSubmitting st' = false
  ∧ (∀ a b, render st' ≠ SubmittedView a b)
  ∧ (∀ f, render st' ≠ Form f)
  ∧ (∀ tbl, isLoading st = false → t st = Some tbl →
     render st'
     = ErrorView (tr tbl "error") "Failed to submit form. Please try again.").
Proof.
  intros Hok st'. subst st'. rewrite (submitForm_not_ok _ Hok).
  split_and!; try reflexivity.
  - intros H. by destruct (run_isSubmitted evs start H).
  - intros a b. unfold render; cbn.
    destruct (isLoading st); [done|]. by destruct (t _).
  - intros f. unfold render; cbn.
    destruct (isLoading st); [done|]. by destruct (t _).
  - intros tbl Hl Ht. unfold render; cbn. rewrite Hl.
    change (t _) with (t st). by rewrite Ht.
Qed.

Lemma failed_submission_shows_error_witness :
  let failed :=
    handleSubmit_settled (submitForm (Resolved Samples.expired_response))
      (state (run start Samples.sign_and_submit).1) in
  isSubmitted failed = false
  ∧ render failed
    = ErrorView (Some "Error") "Failed to submit form. Please try again.".
Proof.
  pose proof (failed_submission_shows_error Samples.sign_and_submit
                (state (run start Samples.sign_and_submit).1)
                Samples.expired_response eq_refl) as H.
  cbn zeta in H. destruct H as (_ & Hs & _ & _ & _ & _ & Hr).
  split.
  - rewrite Hs. reflexivity.
  - apply (Hr (default [] (table_of "es"))); reflexivity.
Defined.

(** C8, as stated, fails: the subject has signed and submitted, the form
    is on the screen; the submission is refused, and the page shows the
    error view, not the form. *)
Lemma failed_submission_hides_form :
  let p := (run start Samples.sign_and_submit).1 in
  (∃ f, render (state p) = Form f)
  ∧ awaiting p
    = [CallSubmitForm "3f2a9c1e" (Some "data:image/png;base64,iVBORw0KGgo=")]
  ∧ render (state (step p (Settle 0 (Resolved Samples.expired_response))).1)
    = ErrorView (Some "Error") "Failed to submit form. Please try again."
  ∧ ¬ (∃ f, render
              (state (step p (Settle 0 (Resolved Samples.expired_response))).1)
            = Form f).
Proof.
  cbn zeta. split_and!.
  - eexists. reflexivity.
  - reflexivity.
  - reflexivity.
  - intros [f H]. vm_compute in H. discriminate.
Qed.

(** C3, as the code has it. Whatever response that is not ok the
    form-data request gets, the page ends in the same state: the error is
    the one message "Unable to load form data. Please try again later.",
    and that message is what the error view shows. The reason of the
    failure is not kept. *)
Theorem form_data_failure_is_generic
    (st : State) (r1 r2 : Response) :
  ok r1 = false → ok r2 = false →
  let st1 := fetchData_settled (getFormData (Resolved r1)) st in
  let st2 := fetchData_settled (getFormData (Resolved r2)) st in
  st1 = st2
  ∧ render st1 = render st2
  ∧ error st1 = Some "Unable to load form data. Please try again later."
  ∧ (∀ tbl, t st = Some tbl →
     render st1
     = ErrorView (tr tbl "error")
         "Unable to load form data. Please try again later.").
Proof.
  intros H1 H2. cbn zeta.
  rewrite (getFormData_not_ok _ H1), (getFormData_not_ok _ H2).
  split_and!; try reflexivity.
  intros tbl Ht. unfold render; cbn.
  change (t _) with (t st). by rewrite Ht.
Qed.

Lemma form_data_failure_is_generic_witness :
  let opened := state (run start [Route (QString "3f2a9c1e")]).1 in
  render (fetchData_settled
            (getFormData (Resolved Samples.expired_response)) opened)
  = render (fetchData_settled
              (getFormData (Resolved Samples.already_submitted_response))
              opened).
Proof.
  cbn zeta.
  exact (proj1 (proj2 (form_data_failure_is_generic
           (state (run start [Route (QString "3f2a9c1e")]).1)
           Samples.expired_response Samples.already_submitted_response
           eq_refl eq_refl))).
Defined.

(** C3, as stated, fails: an expired link and an already submitted form,
    which the server answers differently, give the subject the same
    page. *)
Lemma token_misuse_not_distinguished :
  let opened := (run start [Route (QString "3f2a9c1e")]).1 in
  let view response :=
    render (state (step opened (Settle 0 (Resolved response))).1) in
  status Samples.expired_response ≠ status Samples.already_submitted_response
  ∧ json Samples.expired_response ≠ json Samples.already_submitted_response
  ∧ view Samples.expired_response
    = ErrorView (Some "Error")
        "Unable to load form data. Please try again later."
  ∧ view Samples.already_submitted_response
    = view Samples.expired_response.
Proof.
  cbn zeta. split_and!; try reflexivity; discriminate.
Qed.

End FormPageFacts.

(** ** The session back end *)

Module BackendFacts.
Import Backend.

(** The flag is exactly the 2-of-3 rule. *)
Definition auth_sound (s : Session) : Prop :=
  authenticated s = (2 <=? matched_count s).

Lemma matched_count_statuses (s : Session) :
  matched_count s
  = length (filter (λ x, is_matched x = true)
              [date_of_birth s; postal_code s; partial_identifier s]).
Proof.
  unfold matched_count. cbn [fact_status].
  rewrite !filter_cons, !filter_nil. cbn [fact_status].
  destruct (date_of_birth s), (postal_code s), (partial_identifier s);
    reflexivity.
Qed.

Lemma new_session_sound (id first phone lang : string) :
  auth_sound (new_session id first phone lang).
Proof. reflexivity. Qed.

Lemma with_phase_sound (p : Phase) (s : Session) :
  auth_sound s → auth_sound (with_phase p s).
Proof. done. Qed.

Lemma with_fact_sound (f : Fact) (st : FactStatus) (n : nat) (s : Session) :
  auth_sound (with_fact f st n s).
Proof.
  unfold auth_sound. rewrite matched_count_statuses. by destruct f.
Qed.

Lemma with_opt_in_sound (a : bool) (m : option (string * nat)) (s : Session) :
  auth_sound s → auth_sound (with_opt_in a m s).
Proof. done. Qed.

Lemma with_consumed_sound (s : Session) :
  auth_sound s → auth_sound (with_consumed s).
Proof. done. Qed.

Lemma with_submission_sound (sig : string) (s : Session) :
  auth_sound s → auth_sound (with_submission sig s).
Proof. done. Qed.

Create HintDb session_sound.
#[local] Hint Resolve new_session_sound with_phase_sound with_fact_sound
  with_opt_in_sound with_consumed_sound with_submission_sound : session_sound.

Section Policy.
Variable normalize : Fact → string → option string.
Variable known : Fact → string.
Variable valid_signature : string → bool.

Lemma submit_fact_sound (s : Session) (f : Fact) (spoken : string) :
  auth_sound (submit_fact normalize known s f spoken).1.
Proof. unfold submit_fact. cbn [fst]. auto with session_sound. Qed.

Lemma submit_form_sound (s s' : Session) (sig : option string) :
  auth_sound s → submit_form valid_signature s sig = inl s' → auth_sound s'.
Proof.
  unfold submit_form. intros H.
  destruct (decide _); [|discriminate].
  destruct sig as [v|]; [|discriminate].
  destruct (valid_signature v); [|discriminate].
  intros [= <-]. auto with session_sound.
Qed.

Lemma redeem_sound (s s' : Session) (tok : string) (now : nat) :
  auth_sound s → redeem s tok now = inl s' → auth_sound s'.
Proof.
  unfold redeem. intros H.
  destruct (token s); [|discriminate].
  destruct (negb _); [discriminate|].
  destruct (consumed s); [discriminate|].
  destruct (negb _); [discriminate|].
  destruct (decide _); [|discriminate].
  intros [= <-]. auto with session_sound.
Qed.

Lemma apply_event_sound (s : Session) (ev : Event) :
  auth_sound s → auth_sound (apply_event normalize known valid_signature s ev).
Proof.
  intros H. destruct ev as [| | |f spoken| | |a tok e|tok now| |sig].
  1-3, 5-7, 9:
    unfold apply_event; destruct (phase s); auto with session_sound.
  - unfold apply_event.
    pose proof (submit_fact_sound s f spoken) as Hf.
    destruct (submit_fact normalize known s f spoken) as [s' sg].
    destruct (phase s); try done.
    destruct sg; auto with session_sound.
  - assert (apply_event normalize known valid_signature s
              (TokenPresented tok now)
            = match redeem s tok now with inl s' => s' | inr _ => s end) as ->
      by (unfold apply_event; by destruct (phase s)).
    destruct (redeem s tok now) eqn:E; [|done]. by eapply redeem_sound.
  - assert (apply_event normalize known valid_signature s (FormSubmitted sig)
            = match submit_form valid_signature s sig with
              | inl s' => s' | inr _ => s end) as ->
      by (unfold apply_event; by destruct (phase s)).
    destruct (submit_form valid_signature s sig) eqn:E; [|done].
    by eapply submit_form_sound.
Qed.

Lemma apply_events_sound (evs : list Event) (s : Session) :
  auth_sound s →
  auth_sound (apply_events normalize known valid_signature s evs).
Proof.
  revert s. induction evs as [|ev evs IH]; intros s H; [done|].
  cbn. apply IH. by apply apply_event_sound.
Qed.

(** The submit-form operation refuses a missing signature, a signature
    that is not valid, and any phase but [FORM_REVIEW]. *)
Lemma submit_form_fails (s : Session) (sig : option string) :
  sig = None ∨ (∃ v, sig = Some v ∧ valid_signature v = false)
  ∨ phase s ≠ FORM_REVIEW →
  ∃ e, submit_form valid_signature s sig = inr e.
Proof.
  unfold submit_form. intros [->|[(v & -> & Hv)|Hp]].
  - destruct (decide _); by eexists.
  - rewrite Hv. destruct (decide _); by eexists.
  - rewrite decide_False by done. by eexists.
Qed.

End Policy.

(** C1. For every session, [authenticated] is true only if at least two
    of the three identity facts (date of birth, postal code, partial
    identifier) are marked matched: whatever happens to a session from
    its creation on, it never has the flag set with fewer than two
    matched facts. *)
Theorem authenticated_needs_two_of_three
    (normalize : Fact → string → option string) (known : Fact → string)
    (valid_signature : string → bool)
    (id first phone lang : string) (evs : list Event) :
  let s :=
    apply_events normalize known valid_signature
      (new_session id first phone lang) evs in
  authenticated s = true → 2 ≤ matched_count s.
Proof.
  cbn zeta. intros H.
  pose proof (apply_events_sound normalize known valid_signature evs _
                (new_session_sound id first phone lang)) as Hs.
  unfold auth_sound in Hs. rewrite H in Hs.
  symmetry in Hs. by apply Nat.leb_le in Hs.
Qed.

Lemma authenticated_needs_two_of_three_witness :
  let s :=
    apply_events Samples.normalize_verbatim Samples.known_facts
      Samples.any_signature
      (new_session "3f2a9c1e" "Ana" "+15550001111" "es") Samples.scenario_A in
  authenticated s = true ∧ phase s = ASSESSMENT ∧ 2 ≤ matched_count s.
Proof.
  cbn zeta. split; [reflexivity|split; [reflexivity|]].
  apply (authenticated_needs_two_of_three Samples.normalize_verbatim
           Samples.known_facts Samples.any_signature
           "3f2a9c1e" "Ana" "+15550001111" "es" Samples.scenario_A).
  reflexivity.
Defined.

Lemma append_inj_l (a b c : string) : a +:+ b = a +:+ c → b = c.
Proof. induction a as [|x a IH]; cbn; [done|]. intros [= H]. auto. Qed.

(** C6. For every existing session the session-status query returns the
    four fields [session_id], [call_completed], [form_submitted] and
    [opted_in_for_sms], no others, and that is what [getSessionStatus]
    hands to its caller. The client asks for them at
    [/api/forms/{session_id}/status]; the README documents
    [GET /api/calls/session/{session_id}] and has no entry for the path
    the client uses. *)
Theorem session_status_contract
    (store : gmap string Session) (id : string) (s : Session)
    (env : option string) :
  store !! id = Some s →
  Api.getSessionStatus (Api.Resolved (session_status store id))
  = Return (status_of s)
  ∧ (∃ completed submitted opted : bool,
       status_of s
       = JObj [ ("session_id", JStr (session_id s));
                ("call_completed", JBool completed);
                ("form_submitted", JBool submitted);
                ("opted_in_for_sms", JBool opted) ])
  ∧ Api.conforms Api.SessionStatus (status_of s) = true
  ∧ keys Api.SessionStatus
    = ["session_id"; "call_completed"; "form_submitted"; "opted_in_for_sms"]
  ∧ Api.getSessionStatus_request env id
    = {| Api.method := "GET";
         Api.url := Api.API_URL env +:+ "/api/forms/" +:+ id +:+ "/status";
         Api.headers := []; Api.body := None |}
  ∧ ("GET", "/api/calls/session/{session_id}", "Get session details")
    ∈ Readme.endpoints
  ∧ Forall (λ e, e.1.2 ≠ "/api/forms/{session_id}/status") Readme.endpoints
  ∧ Api.url (Api.getSessionStatus_request env id)
    ≠ Api.API_URL env +:+ Readme.instantiate "/api/calls/session/" "" id.
Proof.
  intros Hs. split_and!.
  - unfold session_status. by rewrite Hs.
  - by eexists _, _, _.
  - reflexivity.
  - reflexivity.
  - reflexivity.
  - apply list_elem_of_In. cbn. tauto.
  - repeat constructor; discriminate.
  - cbn [Api.url Api.getSessionStatus_request]. intros H%append_inj_l.
    discriminate.
Qed.

Lemma session_status_contract_witness :
  Api.getSessionStatus
    (Api.Resolved
       (session_status
          {[ "3f2a9c1e" := new_session "3f2a9c1e" "Ana" "+15550001111" "es" ]}
          "3f2a9c1e"))
  = Return
      (JObj [ ("session_id", JStr "3f2a9c1e");
              ("call_completed", JBool false);
              ("form_submitted", JBool false);
              ("opted_in_for_sms", JBool false) ]).
Proof.
  apply (session_status_contract
           {[ "3f2a9c1e" := new_session "3f2a9c1e" "Ana" "+15550001111" "es" ]}
           "3f2a9c1e" (new_session "3f2a9c1e" "Ana" "+15550001111" "es") None).
  reflexivity.
Defined.

End BackendFacts.

(** ** Submission, on both sides *)

Module SubmissionFacts.
Import Api SignaturePadComponent FormPage.

(** C2. The submit-form operation fails whenever no valid signature is
    supplied or the session is not in phase [FORM_REVIEW]. On the client,
    [submitForm] is never called with a null signature: [handleSubmit]
    returns early without one, the submit button is disabled while the
    signature is null, and the signature pad hands over a signature that
    is not null only when the canvas is not empty. *)
Theorem submit_needs_signature
    (valid_signature : string → bool) (s : Backend.Session)
    (sig : option string)
    (st : State) (sigRef : option SignatureCanvas) (hasSignature0 : bool)
    (evs : list Event) :
  (sig = None ∨ (∃ v, sig = Some v ∧ valid_signature v = false)
   ∨ Backend.phase s ≠ Backend.FORM_REVIEW →
   ∃ e, Backend.submit_form valid_signature s sig = inr e)
  ∧ (signature st = None → handleSubmit st = (st, []))
  ∧ (signature st = None → ∀ f, render st = Form f → submit_disabled f = true)
  ∧ (∀ v, onSignature (handleEnd sigRef hasSignature0) = Some (Some v) →
     ∃ canvas, sigRef = Some canvas ∧ isEmpty canvas = false
               ∧ v = toDataURL canvas)
  ∧ (∀ v, onSignature (handleClear sigRef hasSignature0) ≠ Some (Some v))
  ∧ Forall
      (λ c, match c with
            | CallSubmitForm _ given => ∃ v, given = Some v ∧ v ≠ ""
            | _ => True
            end)
      (run start evs).2.
Proof.
  split_and!.
  - apply BackendFacts.submit_form_fails.
  - intros H. unfold handleSubmit. by rewrite H.
  - intros H f. unfold render. rewrite H.
    destruct (isLoading st); [done|]. destruct (t st); [|done].
    destruct (_ || _); [done|]. destruct (isSubmitted st); [done|].
    by intros [= <-].
  - intros v. unfold handleEnd.
    destruct sigRef as [canvas|]; [|done].
    destruct (isEmpty canvas) eqn:E; [done|]. cbn. intros [= <-]. eauto.
  - intros v. unfold handleClear. by destruct sigRef.
  - apply FormPageFacts.form_run_calls.
Qed.

Lemma submit_needs_signature_witness :
  (∃ e,
     Backend.submit_form Samples.any_signature
       (Backend.with_consumed
          (Backend.new_session "3f2a9c1e" "Ana" "+15550001111" "es"))
       None
     = inr e)
  ∧ handleSubmit initial = (initial, []).
Proof.
  pose proof (submit_needs_signature Samples.any_signature
                (Backend.with_consumed
                   (Backend.new_session "3f2a9c1e" "Ana" "+15550001111" "es"))
                None initial None false []) as (Hserver & Hclient & _).
  split.
  - apply Hserver. left; reflexivity.
  - apply Hclient. reflexivity.
Defined.

End SubmissionFacts.

(** * Further properties of the client *)

(** ** Phone numbers *)

Module PhoneFacts.
Import Utils UtilsFacts.

Lemma remove_non_digits_string (s : string) :
  remove_non_digits s
  = String.string_of_list_ascii
      (filter (λ c, is_digit c = true) (String.list_ascii_of_string s)).
Proof.
  rewrite <- remove_non_digits_filter.
  by rewrite String.string_of_list_ascii_of_string.
Qed.

(** The digit tests of [remove_non_digits]: on a character that is known
    to be a digit by hypothesis, on a literal character by computation. *)
Local Ltac strip_digits :=
  repeat first
    [ progress cbn [remove_non_digits String.string_of_list_ascii]
    | match goal with
      | E : is_digit ?a = true |- context [is_digit ?a] => rewrite E
      | |- context [is_digit (Ascii ?b0 ?b1 ?b2 ?b3 ?b4 ?b5 ?b6 ?b7)] =>
          let c := constr:(Ascii b0 b1 b2 b3 b4 b5 b6 b7) in
          let v := eval vm_compute in (is_digit c) in
          change (is_digit c) with v
      end ].

Local Ltac digit_hyps H :=
  repeat match goal with
         | H : Forall _ (_ :: _) |- _ =>
             let E := fresh "E" in
             apply Forall_cons_1 in H as [E H]; cbn beta in E
         end.

Lemma formatPhoneNumber_spec_digits (phone : string) :
  remove_non_digits (formatPhoneNumber_spec phone) = remove_non_digits phone.
Proof.
  unfold formatPhoneNumber_spec.
  pose proof (filter_digits_all (String.list_ascii_of_string phone)) as H.
  pose proof (remove_non_digits_string phone) as Hp.
  destruct (filter _ (String.list_ascii_of_string phone)) as [|? l]; [done|].
  do 9 (destruct l as [|? l]; [done|]).
  destruct l as [|? l].
  { rewrite Hp. digit_hyps H. strip_digits. reflexivity. }
  destruct l as [|? l]; [|done].
  rewrite Hp. digit_hyps H. strip_digits. reflexivity.
Qed.

(** X2. Formatting keeps the digits: the digits of the result are the
    digits of the argument, in the same order. *)
Theorem formatPhoneNumber_keeps_digits (phone : string) :
  remove_non_digits (formatPhoneNumber phone) = remove_non_digits phone.
Proof.
  rewrite formatPhoneNumber_correct. apply formatPhoneNumber_spec_digits.
Qed.

Lemma formatPhoneNumber_filter (phone : string) :
  filter (λ c, is_digit c = true)
    (String.list_ascii_of_string (formatPhoneNumber phone))
  = filter (λ c, is_digit c = true) (String.list_ascii_of_string phone).
Proof.
  rewrite <- !remove_non_digits_filter.
  by rewrite formatPhoneNumber_keeps_digits.
Qed.

(** X1. Formatting is idempotent: a formatted number is left as it is. *)
Theorem formatPhoneNumber_idempotent (phone : string) :
  formatPhoneNumber (formatPhoneNumber phone) = formatPhoneNumber phone.
Proof.
  rewrite (formatPhoneNumber_correct (formatPhoneNumber phone)).
  unfold formatPhoneNumber_spec at 1. rewrite formatPhoneNumber_filter.
  rewrite (formatPhoneNumber_correct phone). unfold formatPhoneNumber_spec.
  destruct (filter _ (String.list_ascii_of_string phone)) as [|? l]; [done|].
  do 11 (destruct l as [|? l]; [done|]). done.
Qed.

Lemma list_ascii_length (s : string) :
  length (String.list_ascii_of_string s) = String.length s.
Proof. induction s as [|c s IH]; cbn; by rewrite ?IH. Qed.

(** X3. With ten or eleven digits the result depends on the digits alone:
    two inputs with the same digits are formatted the same, whatever else
    they contain. *)
Theorem formatPhoneNumber_digits_only (phone1 phone2 : string) :
  remove_non_digits phone1 = remove_non_digits phone2 →
  String.length (remove_non_digits phone1) = 10
  ∨ String.length (remove_non_digits phone1) = 11 →
  formatPhoneNumber phone1 = formatPhoneNumber phone2.
Proof.
  intros Heq Hlen. rewrite !formatPhoneNumber_correct.
  unfold formatPhoneNumber_spec.
  rewrite <- list_ascii_length, remove_non_digits_filter in Hlen.
  apply (f_equal String.list_ascii_of_string) in Heq.
  rewrite !remove_non_digits_filter in Heq. rewrite <- Heq.
  destruct (filter _ (String.list_ascii_of_string phone1)) as [|? l];
    [cbn in Hlen; lia|].
  do 9 (destruct l as [|? l]; [cbn in Hlen; lia|]).
  destruct l as [|? l]; [done|].
  destruct l as [|? l]; [done|]. cbn in Hlen; lia.
Qed.

Lemma formatPhoneNumber_digits_only_witness :
  formatPhoneNumber "555.123.4567" = formatPhoneNumber "(555) 123-4567".
Proof.
  apply formatPhoneNumber_digits_only; [reflexivity|left; reflexivity].
Defined.

End PhoneFacts.

(** ** Requests and their results *)

Module RequestFacts.
Import Api.

Lemma string_length_append (a b : string) :
  String.length (a +:+ b) = String.length a + String.length b.
Proof. induction a as [|x a IH]; simpl; [reflexivity|congruence]. Qed.

Lemma append_cancel_l (a b c : string) : a +:+ b = a +:+ c → b = c.
Proof. induction a as [|x a IH]; cbn; [done|]. intros [= H]. auto. Qed.

Lemma append_cancel_r (a b c : string) : a +:+ c = b +:+ c → a = b.
Proof.
  revert b. induction a as [|x a IH]; intros [|y b] H.
  - done.
  - apply (f_equal String.length) in H.
    rewrite !string_length_append in H. cbn in H. lia.
  - apply (f_equal String.length) in H.
    rewrite !string_length_append in H. cbn in H. lia.
  - simpl in H. injection H as -> H. by rewrite (IH b H).
Qed.

(** X4. The session id goes into the path as it is, without encoding: the
    form-data request for the id [s/status] is the session-status request
    for the id [s], and the form-data request for [s/submit] has the URL
    of the submission of [s]. *)
Theorem session_id_not_encoded (env : option string) (s signature : string) :
  getFormData_request env (s +:+ "/status") = getSessionStatus_request env s
  ∧ url (getFormData_request env (s +:+ "/submit"))
    = url (submitForm_request env s signature).
Proof. split; reflexivity. Qed.

(** X5. Requests for different sessions go to different URLs: each of the
    three requests that name a session has a URL that determines the
    session id. *)
Theorem request_url_determines_session
    (env : option string) (s1 s2 sig1 sig2 : string) :
  (url (getFormData_request env s1) = url (getFormData_request env s2) →
   s1 = s2)
  ∧ (url (submitForm_request env s1 sig1) = url (submitForm_request env s2 sig2) →
     s1 = s2)
  ∧ (url (getSessionStatus_request env s1) = url (getSessionStatus_request env s2) →
     s1 = s2).
Proof.
  cbn [url getFormData_request submitForm_request getSessionStatus_request].
  split_and!.
  - intros H%append_cancel_l. by apply (append_cancel_l "/api/forms/").
  - intros H%append_cancel_l. apply (append_cancel_l "/api/forms/") in H.
    by apply append_cancel_r in H.
  - intros H%append_cancel_l. apply (append_cancel_l "/api/forms/") in H.
    by apply append_cancel_r in H.
Qed.

Lemma request_url_determines_session_witness :
  url (getFormData_request None "3f2a9c1e")
  ≠ url (getFormData_request None "7b1d0e42").
Proof.
  intros H.
  pose proof (proj1 (request_url_determines_session None
                       "3f2a9c1e" "7b1d0e42" "" "") H) as E.
  discriminate E.
Defined.



(** X7. The deploy script and the client agree on the default: a client
    built by [deploy-frontend.sh] uses the base URL that the client would
    use were the script's [API_URL] its own environment variable; unset or
    empty, both give [https://zappix2-backend.aldea.ai]. *)
Theorem deploy_script_same_base_url (var : option string) :
  API_URL (Deploy.NEXT_PUBLIC_API_URL var) = API_URL var
  ∧ Deploy.NEXT_PUBLIC_API_URL var ≠ Some "".
Proof.
  destruct var as [[|c s]|]; split; done.
Qed.

(** X8. The four functions of the client return a value in one case only,
    a response that is ok and whose body is JSON, and the value is then
    that body as parsed: nothing is returned for a rejected fetch or a
    response that is not ok, and the body is not checked against the
    declared result type. *)
Theorem client_returns_parsed_body (fetched : FetchOutcome) (v : JsValue) :
  let success :=
    ∃ response, fetched = Resolved response ∧ ok response = true
                ∧ json response = Some v in
  (getFormData fetched = Return v ↔ success)
  ∧ (submitForm fetched = Return v ↔ success)
  ∧ (initiateOutboundCall fetched = Return v ↔ success)
  ∧ (getSessionStatus fetched = Return v ↔ success).
Proof.
  cbn zeta.
  assert (∀ msg,
    match fetched with
    | Rejected m => Throw m
    | Resolved response =>
        if negb (ok response) then Throw msg else response_json response
    end = Return v
    ↔ ∃ response, fetched = Resolved response ∧ ok response = true
                  ∧ json response = Some v) as H.
  { intros msg. destruct fetched as [response|m].
    - unfold response_json.
      destruct (ok response) eqn:Eo, (json response) eqn:Ej; cbn; split;
        try (intros [= <-]; eauto);
        try (intros (r & [= <-] & ? & ?); congruence);
        try done.
    - split; [done|]. by intros (r & ? & _). }
  split_and!; apply H.
Qed.

End RequestFacts.

(** ** The form page over time *)

Module FormPageTraces.
Import Utils FormFieldComponent Api SignaturePadComponent FormPage.
Import FormPageBrowser.

(** What the two continuations leave alone. *)
Lemma fetchData_settled_keeps (data : Completion JsValue) (st : State) :
  signature (fetchData_settled data st) = signature st
  ∧ isSubmitted (fetchData_settled data st) = isSubmitted st
  ∧ isSubmitting (fetchData_settled data st) = isSubmitting st
  ∧ sessionId (fetchData_settled data st) = sessionId st
  ∧ (truthy_opt (error st) = true →
     truthy_opt (error (fetchData_settled data st)) = true).
Proof. by destruct data. Qed.

Lemma handleSubmit_settled_keeps (r : Completion JsValue) (st : State) :
  signature (handleSubmit_settled r st) = signature st
  ∧ isLoading (handleSubmit_settled r st) = isLoading st
  ∧ sessionId (handleSubmit_settled r st) = sessionId st
  ∧ isSubmitting (handleSubmit_settled r st) = false
  ∧ (isSubmitted st = true → isSubmitted (handleSubmit_settled r st) = true)
  ∧ (truthy_opt (error st) = true →
     truthy_opt (error (handleSubmit_settled r st)) = true)
  ∧ (isSubmitted (handleSubmit_settled r st) = true
     ∨ truthy_opt (error (handleSubmit_settled r st)) = true).
Proof. destruct r; cbn; split_and!; auto. Qed.

Lemma handleSubmit_keeps (st : State) :
  signature (handleSubmit st).1 = signature st
  ∧ isSubmitted (handleSubmit st).1 = isSubmitted st
  ∧ error (handleSubmit st).1 = error st
  ∧ isLoading (handleSubmit st).1 = isLoading st
  ∧ sessionId (handleSubmit st).1 = sessionId st.
Proof.
  unfold handleSubmit. destruct (negb _); [done|].
  by destruct (session_string _).
Qed.

(** A property of the state that every event keeps. *)
Lemma step_state_invariant (P : State → Prop) (p : Page) (ev : Event) :
  (∀ q st, P st → P (setQuery q st)) →
  (∀ v st, P st → P (setSignature v st)) →
  (∀ data st, P st → P (fetchData_settled data st)) →
  (∀ r st, P st → P (handleSubmit_settled r st)) →
  (∀ st, P st → P (handleSubmit st).1) →
  P (state p) → P (state (step p ev).1).
Proof.
  intros Hq Hs Hf Hr Hh H.
  destruct ev as [q|n fetched|sigRef|sigRef|];
    cbn -[handleSubmit handleSubmit_settled fetchData_settled].
  - destruct (decide _); cbn; auto.
  - destruct (awaiting p !! n) as [[sid|sid sig|req]|]; cbn; auto.
  - unfold deliver. destruct (onSignature _); cbn; auto.
  - unfold deliver. destruct (onSignature _); cbn; auto.
  - specialize (Hh _ H). by destruct (handleSubmit (state p)).
Qed.

Lemma run_state_invariant (P : State → Prop) (evs : list Event) (p : Page) :
  (∀ q st, P st → P (setQuery q st)) →
  (∀ v st, P st → P (setSignature v st)) →
  (∀ data st, P st → P (fetchData_settled data st)) →
  (∀ r st, P st → P (handleSubmit_settled r st)) →
  (∀ st, P st → P (handleSubmit st).1) →
  P (state p) → P (state (run p evs).1).
Proof.
  intros Hq Hs Hf Hr Hh. revert p.
  induction evs as [|ev evs IH]; intros p H; [done|].
  cbn [run]. pose proof (step_state_invariant P p ev Hq Hs Hf Hr Hh H) as H1.
  destruct (step p ev) as [p1 calls1]. specialize (IH p1 H1).
  by destruct (run p1 evs).
Qed.

(** X11. An error stays: once the error message is set nothing clears it,
    and from then on the page shows neither the form nor the submitted
    view, whatever happens next (a later successful load or submission
    included). *)
Theorem error_is_permanent (p : Page) (evs : list Event) :
  truthy_opt (error (state p)) = true →
  let st := state (run p evs).1 in
  truthy_opt (error st) = true
  ∧ (∀ f, render st ≠ Form f)
  ∧ (∀ a b, render st ≠ SubmittedView a b).
Proof.
  intros H. cbn zeta.
  assert (truthy_opt (error (state (run p evs).1)) = true) as He.
  { apply (run_state_invariant (λ st, truthy_opt (error st) = true));
      try done.
    - intros data st. apply fetchData_settled_keeps.
    - intros r st. apply handleSubmit_settled_keeps.
    - intros st. by rewrite (proj1 (proj2 (proj2 (handleSubmit_keeps st)))). }
  split_and!; [done|..]; intros; unfold render; rewrite He;
    destruct (isLoading _); try done; by destruct (t _).
Qed.

Lemma error_is_permanent_witness :
  let failed :=
    (run start [Route (QString "3f2a9c1e");
                Settle 0 (Resolved Samples.expired_response)]).1 in
  render
    (state (run failed
              [Route (QString "7b1d0e42");
               Settle 0 (Resolved Samples.form_data_response)]).1)
  = ErrorView (Some "Error")
      "Unable to load form data. Please try again later."
  ∧ truthy_opt
      (error (state (run failed
                       [Route (QString "7b1d0e42");
                        Settle 0 (Resolved Samples.form_data_response)]).1))
    = true.
Proof.
  cbn zeta. split; [reflexivity|].
  apply (error_is_permanent
           (run start [Route (QString "3f2a9c1e");
                       Settle 0 (Resolved Samples.expired_response)]).1
           [Route (QString "7b1d0e42");
            Settle 0 (Resolved Samples.form_data_response)]).
  reflexivity.
Defined.

(** X12. A submission stays: once [isSubmitted] is true it remains true,
    and the form is not shown again. *)
Theorem submitted_is_permanent (p : Page) (evs : list Event) :
  isSubmitted (state p) = true →
  let st := state (run p evs).1 in
  isSubmitted st = true ∧ (∀ f, render st ≠ Form f).
Proof.
  intros H. cbn zeta.
  assert (isSubmitted (state (run p evs).1) = true) as Hs.
  { apply (run_state_invariant (λ st, isSubmitted st = true)); try done.
    - intros data st. by rewrite (proj1 (proj2 (fetchData_settled_keeps data st))).
    - intros r st. apply handleSubmit_settled_keeps.
    - intros st. by rewrite (proj1 (proj2 (handleSubmit_keeps st))). }
  split; [done|]. intros f. unfold render. rewrite Hs.
  destruct (isLoading _); [done|]. destruct (t _); [|done].
  by destruct (_ || _).
Qed.

Lemma submitted_is_permanent_witness :
  let submitted :=
    (run start (Samples.sign_and_submit
                ++ [Settle 0 (Resolved Samples.form_data_response)])).1 in
  isSubmitted (state submitted) = true
  ∧ isSubmitted
      (state (run submitted [PadClear (Some Samples.signed_canvas); Submit]).1)
    = true.
Proof.
  cbn zeta. split; [reflexivity|].
  apply (submitted_is_permanent
           (run start (Samples.sign_and_submit
                       ++ [Settle 0 (Resolved Samples.form_data_response)])).1
           [PadClear (Some Samples.signed_canvas); Submit]).
  reflexivity.
Defined.


(** A page that holds no signature makes no call of [submitForm]. *)
Lemma unsigned_step (p : Page) (ev : Event) :
  signature (state p) = None → is_pad_end ev = false →
  signature (state (step p ev).1) = None
  ∧ submit_count (step p ev).2 = 0.
Proof.
  intros H Hev.
  destruct ev as [q|n fetched|sigRef|sigRef|]; try discriminate;
    cbn -[handleSubmit handleSubmit_settled fetchData_settled effect].
  - destruct (decide _); [done|]. split; [done|].
    unfold effect. cbn. by destruct (session_string q).
  - destruct (awaiting p !! n) as [[sid|sid sig|req]|];
      cbn -[handleSubmit_settled fetchData_settled]; try done.
    + by rewrite (proj1 (fetchData_settled_keeps _ _)).
    + by rewrite (proj1 (handleSubmit_settled_keeps _ _)).
  - unfold handleClear, deliver. by destruct sigRef.
  - unfold handleSubmit. by rewrite H.
Qed.

Lemma submit_count_app (l1 l2 : list Call) :
  submit_count (l1 ++ l2) = submit_count l1 + submit_count l2.
Proof. unfold submit_count. by rewrite filter_app, length_app. Qed.

(** X16. Clearing the pad withdraws the signature: after a click on the
    clear button no call of [submitForm] is made until the canvas reports
    a new stroke, whatever had been signed before and however often the
    form is submitted. *)
Theorem cleared_pad_blocks_submission
    (p : Page) (canvas : SignatureCanvas) (evs : list Event) :
  Forall (λ ev, is_pad_end ev = false) evs →
  let cleared := (step p (PadClear (Some canvas))).1 in
  signature (state cleared) = None
  ∧ submit_count (run cleared evs).2 = 0.
Proof.
  intros Hevs. cbn zeta. split; [reflexivity|].
  assert (signature (state (step p (PadClear (Some canvas))).1) = None) as H
    by reflexivity.
  revert H. generalize (step p (PadClear (Some canvas))).1. clear p.
  induction Hevs as [|ev evs Hev _ IH]; intros p H; [done|].
  cbn [run]. destruct (unsigned_step p ev H Hev) as [H1 Hc].
  destruct (step p ev) as [p1 calls1]. specialize (IH p1 H1).
  destruct (run p1 evs) as [p2 calls2]. cbn [fst snd] in *.
  rewrite submit_count_app. lia.
Qed.

Lemma cleared_pad_blocks_submission_witness :
  submit_count
    (run (step (run start Samples.sign_and_submit).1
            (PadClear (Some Samples.signed_canvas))).1
       [Submit; Submit]).2
  = 0.
Proof.
  apply (cleared_pad_blocks_submission
           (run start Samples.sign_and_submit).1 Samples.signed_canvas
           [Submit; Submit]).
  by repeat constructor.
Defined.

(** X13. Without a session id the page waits for ever: as long as the
    router gives no non-empty string for [sessionId] (undefined, the
    empty string, an array), the page makes no call at all and keeps
    showing the loading view. *)
Theorem no_session_no_call (evs : list Event) :
  Forall (λ ev, ∀ q, ev = Route q → session_string q = None) evs →
  (run start evs).2 = []
  ∧ awaiting (run start evs).1 = []
  ∧ render (state (run start evs).1) = Loading.
Proof.
  intros Hevs.
  assert (∀ p : Page,
    session_string (sessionId (state p)) = None ∧ awaiting p = []
    ∧ isLoading (state p) = true →
    (run p evs).2 = []
    ∧ awaiting (run p evs).1 = []
    ∧ isLoading (state (run p evs).1) = true) as H.
  { induction Hevs as [|ev evs Hev _ IH]; intros p (Hs & Ha & Hl); [done|].
    cbn [run].
    assert ((step p ev).2 = []
            ∧ session_string (sessionId (state (step p ev).1)) = None
            ∧ awaiting (step p ev).1 = []
            ∧ isLoading (state (step p ev).1) = true) as (Hc & H1).
    { destruct ev as [q|n fetched|sigRef|sigRef|]; cbn -[handleSubmit].
      - destruct (decide _); [done|]. unfold effect. cbn.
        rewrite (Hev q eq_refl), Ha. done.
      - rewrite Ha. done.
      - unfold deliver. by destruct (onSignature _).
      - unfold deliver. by destruct (onSignature _).
      - unfold handleSubmit. destruct (negb _); [by rewrite Ha|].
        rewrite Hs. by rewrite Ha. }
    destruct (step p ev) as [p1 calls1]. specialize (IH p1 H1).
    destruct (run p1 evs) as [p2 calls2]. cbn in *.
    destruct IH as (-> & ? & ?). by rewrite Hc. }
  destruct (H start) as (Hc & Ha & Hl); [done|].
  split_and!; [done..|]. unfold render. by rewrite Hl.
Qed.

Lemma no_session_no_call_witness :
  render
    (state (run start [Route (QArray ["3f2a9c1e"; "7b1d0e42"]);
                       Route (QString ""); Submit]).1)
  = Loading.
Proof.
  apply (no_session_no_call
           [Route (QArray ["3f2a9c1e"; "7b1d0e42"]); Route (QString ""); Submit]).
  repeat constructor; by intros q [= <-].
Defined.

Lemma submit_count_cons (c : Call) (l : list Call) :
  submit_count (c :: l) = (if is_submit c then 1 else 0) + submit_count l.
Proof.
  unfold submit_count. rewrite filter_cons.
  destruct (is_submit c); by case_decide.
Qed.

Lemma submit_count_effect (st : State) : submit_count (effect st) = 0.
Proof. unfold effect. by destruct (session_string _). Qed.

Lemma submit_count_delete (l : list Call) (n : nat) (c : Call) :
  l !! n = Some c →
  submit_count (delete n l) + (if is_submit c then 1 else 0) = submit_count l.
Proof.
  revert n. induction l as [|x l IH]; intros [|n] H; try done.
  - cbn in H. injection H as ->. cbn [delete list_delete].
    rewrite submit_count_cons. destruct (is_submit c); lia.
  - cbn in H. cbn [delete list_delete]. rewrite !submit_count_cons.
    specialize (IH n H).
    destruct (is_submit x), (is_submit c); unfold delete in *; lia.
Qed.

(** The page has made no call of [submitForm]; or it has made one and
    waits for it, the button being disabled; or it has made one that has
    settled, which leaves the submitted view or the error view. *)
Definition submitted_once (p : Page) (made : nat) : Prop :=
  (made = 0 ∧ submit_count (awaiting p) = 0)
  ∨ (made = 1 ∧ submit_count (awaiting p) = 1
     ∧ isSubmitting (state p) = true)
  ∨ (made = 1 ∧ submit_count (awaiting p) = 0
     ∧ (isSubmitted (state p) = true ∨ truthy_opt (error (state p)) = true)).

Lemma submit_enabled_fresh (st : State) :
  submit_enabled st = true →
  isSubmitting st = false ∧ isSubmitted st = false
  ∧ truthy_opt (error st) = false ∧ truthy_opt (signature st) = true.
Proof.
  unfold submit_enabled. intros H.
  repeat (apply andb_prop in H as [H ?]).
  destruct (isSubmitting st), (isSubmitted st), (truthy_opt (error st)),
    (truthy_opt (signature st)); try done.
Qed.

Lemma browser_step_once (p : Page) (made : nat) (ev : Event) :
  submitted_once p made →
  submitted_once (browser_step p ev).1
    (made + submit_count (browser_step p ev).2).
Proof.
  intros H.
  destruct ev as [q|n fetched|sigRef|sigRef|];
    cbn -[handleSubmit handleSubmit_settled fetchData_settled effect
          submit_enabled].
  - destruct (decide _); cbn [fst snd awaiting state];
      [by rewrite Nat.add_0_r|].
    rewrite submit_count_effect, Nat.add_0_r.
    unfold submitted_once in *. cbn [awaiting state].
    rewrite submit_count_app, submit_count_effect, Nat.add_0_r. exact H.
  - destruct (awaiting p !! n) as [call|] eqn:En; cbn [fst snd];
      rewrite Nat.add_0_r; [|done].
    pose proof (submit_count_delete _ _ _ En) as Hd.
    unfold submitted_once in *. cbn [awaiting state].
    destruct call as [sid|sid sig|req]; cbn [is_submit] in Hd.
    + rewrite Nat.add_0_r in Hd. rewrite Hd.
      destruct (fetchData_settled_keeps (getFormData fetched) (state p))
        as (_ & -> & -> & _ & He).
      destruct H as [?|[?|(? & ? & [?|?])]]; auto 6.
      right; right. auto.
    + destruct (handleSubmit_settled_keeps (submitForm fetched) (state p))
        as (_ & _ & _ & _ & _ & _ & Hdone).
      destruct H as [[? ?]|[(? & ? & ?)|(? & ? & ?)]]; try lia.
      right; right. split_and!; [done|lia|done].
    + rewrite Nat.add_0_r in Hd. by rewrite Hd.
  - rewrite Nat.add_0_r. unfold submitted_once in *. cbn [awaiting state].
    unfold deliver. by destruct (onSignature _).
  - rewrite Nat.add_0_r. unfold submitted_once in *. cbn [awaiting state].
    unfold deliver. by destruct (onSignature _).
  - destruct (submit_enabled (state p)) eqn:En; cbn [fst snd];
      [|by rewrite Nat.add_0_r].
    apply submit_enabled_fresh in En as (Hing & Hed & Herr & Hsig).
    unfold submitted_once in H.
    destruct H as [[-> Ha]|[(_ & _ & ?)|(_ & _ & [?|?])]]; try congruence.
    cbn [step]. unfold handleSubmit. rewrite Hsig. cbn [negb].
    destruct (session_string _) as [sid|]; cbn [fst snd awaiting state].
    + right; left. cbn [awaiting state].
      rewrite submit_count_app, !submit_count_cons, Ha. done.
    + left. cbn [awaiting]. by rewrite app_nil_r.
Qed.

Lemma browser_run_once (evs : list Event) (p : Page) (made : nat) :
  submitted_once p made →
  submitted_once (browser_run p evs).1
    (made + submit_count (browser_run p evs).2).
Proof.
  revert p made. induction evs as [|ev evs IH]; intros p made H.
  - cbn. by rewrite Nat.add_0_r.
  - cbn [browser_run]. pose proof (browser_step_once p made ev H) as H1.
    destruct (browser_step p ev) as [p1 calls1]. specialize (IH p1 _ H1).
    destruct (browser_run p1 evs) as [p2 calls2]. cbn [fst snd] in *.
    by rewrite submit_count_app, Nat.add_assoc.
Qed.

(** The gate follows the view: where the page shows the form with its
    button enabled, [submit_enabled] holds. *)
Lemma form_enabled_submit_enabled (st : State) (f : FormView) :
  render st = Form f → submit_disabled f = false → submit_enabled st = true.
Proof.
  unfold render, submit_enabled.
  destruct (isLoading st); [done|]. destruct (t st); [|done].
  destruct (_ || _); [done|]. destruct (isSubmitted st); [done|].
  intros [= <-]. cbn. by intros ->.
Qed.

(** X10. The form is submitted at most once per page: in any sequence of
    events in the browser the page calls [submitForm] at most one time.
    While the call is awaited the button is disabled, and once it has
    settled the page shows the submitted view or the error view, neither
    of which has the form; a refused submission cannot be repeated
    without loading the page again. *)
Theorem at_most_one_submission (evs : list Event) :
  submit_count (browser_run start evs).2 ≤ 1
  ∧ submit_count (awaiting (browser_run start evs).1) ≤ 1.
Proof.
  pose proof (browser_run_once evs start 0) as H. cbn [Nat.add] in H.
  unfold submitted_once in H.
  destruct H as [[? ?]|[(? & ? & ?)|(? & ? & ?)]]; [by left|lia..].
Qed.

End FormPageTraces.

(** ** What the form page shows *)

Module FormPageViews.
Import Utils FormFieldComponent Api SignaturePadComponent FormPage.

(** X14. A successful response with an empty body gives "Form not found":
    when the form-data request is answered ok with a falsy JSON value
    (null, false, 0, the empty string), the page shows the error view
    with that text, under the English heading. *)
Theorem empty_body_form_not_found
    (sid : string) (response : Response) (v : JsValue) :
  sid ≠ "" → ok response = true → json response = Some v →
  truthy v = false →
  render
    (state (run start [Route (QString sid);
                       Settle 0 (Resolved response)]).1)
  = ErrorView (Some "Error") "Form not found".
Proof.
  intros Hsid Hok Hjson Hv.
  cbn -[fetchData_settled getFormData effect].
  destruct (decide _) as [|_]; [done|].
  cbn -[fetchData_settled getFormData].
  destruct sid as [|c sid]; [done|].
  cbn -[fetchData_settled]. rewrite Hok. cbn -[fetchData_settled].
  unfold response_json. rewrite Hjson.
  destruct v as [| |b|n|s|fields]; try discriminate.
  - reflexivity.
  - reflexivity.
  - destruct b; [discriminate|reflexivity].
  - cbn in Hv. unfold render, t, lang. cbn. by rewrite Hv.
  - destruct s; [reflexivity|discriminate].
Qed.

Lemma empty_body_form_not_found_witness :
  render
    (state (run start
              [Route (QString "3f2a9c1e");
               Settle 0 (Resolved {| ok := true; status := 200;
                                     json := Some JNull |})]).1)
  = ErrorView (Some "Error") "Form not found".
Proof.
  by apply (empty_body_form_not_found "3f2a9c1e"
              {| ok := true; status := 200; json := Some JNull |} JNull).
Defined.

Lemma language_read (st : State) :
  match formData st with
  | JNull | JUndefined => JUndefined
  | d => get "language" d
  end = get "language" (formData st).
Proof. by destruct (formData st). Qed.

Lemma t_spanish (st : State) :
  get "language" (formData st) = JStr "es" → t st = table_of "es".
Proof. intros H. unfold t, lang. by rewrite language_read, H. Qed.

Lemma t_english (st : State) :
  get "language" (formData st) = JStr "en"
  ∨ truthy (get "language" (formData st)) = false →
  t st = table_of "en".
Proof.
  intros [H|H]; unfold t, lang; rewrite language_read.
  - by rewrite H.
  - by rewrite H.
Qed.

Lemma form_of_table (st : State) (f : FormView) (tbl : list (string * string)) :
  render st = Form f → t st = Some tbl →
  title f = tr tbl "title"
  ∧ submit_label f
    = (if isSubmitting st then tr tbl "submitting" else tr tbl "submit")
  ∧ Forall
      (λ fld, ∀ s, field_body fld = ShowFallback s →
                   s = default "Not provided" (tr tbl "notProvided"))
      (personal_fields f ++ health_fields f).
Proof.
  unfold render. intros H Ht. rewrite Ht in H.
  destruct (isLoading st); [done|]. destruct (_ || _); [done|].
  destruct (isSubmitted st); [done|]. injection H as <-.
  split_and!; [done..|].
  cbn [personal_fields health_fields app].
  repeat constructor; intros s; unfold field, FormField;
    cbn [field_body value fallback];
    (destruct (truthy _); [discriminate|by intros [= <-]]).
Qed.

(** X15. The form is shown in the language of the data. With language
    'es' the title, the button and the text of every field without a
    value are the Spanish ones ("No proporcionado"); with 'en', or with
    no language or an empty one, they are the English ones ("Not
    provided"). *)
Theorem form_follows_language (st : State) (f : FormView) :
  render st = Form f →
  (get "language" (formData st) = JStr "es" →
   title f = Some "Formulario de Evaluación de Salud"
   ∧ submit_label f
     = Some (if isSubmitting st then "Enviando..." else "Enviar Formulario")
   ∧ Forall
       (λ fld, ∀ s, field_body fld = ShowFallback s → s = "No proporcionado")
       (personal_fields f ++ health_fields f))
  ∧ (get "language" (formData st) = JStr "en"
     ∨ truthy (get "language" (formData st)) = false →
     title f = Some "Health Assessment Form"
     ∧ submit_label f
       = Some (if isSubmitting st then "Submitting..." else "Submit Form")
     ∧ Forall
         (λ fld, ∀ s, field_body fld = ShowFallback s → s = "Not provided")
         (personal_fields f ++ health_fields f)).
Proof.
  intros Hf. split; intros Hl.
  - destruct (form_of_table st f _ Hf (t_spanish st Hl)) as (-> & -> & H).
    split_and!; [done|by destruct (isSubmitting st)|exact H].
  - destruct (form_of_table st f _ Hf (t_english st Hl)) as (-> & -> & H).
    split_and!; [done|by destruct (isSubmitting st)|exact H].
Qed.

Lemma form_follows_language_witness :
  ∃ f,
    render (state (run start (Samples.sign_and_submit)).1) = Form f
    ∧ title f = Some "Formulario de Evaluación de Salud"
    ∧ submit_label f = Some "Enviando...".
Proof.
  eexists. split; [reflexivity|].
  destruct (proj1 (form_follows_language
                     (state (run start (Samples.sign_and_submit)).1) _
                     eq_refl) eq_refl) as (Ht & Hs & _).
  split; [exact Ht|exact Hs].
Defined.

(** X19. Only the status of the response decides whether the submission
    succeeded: for every ok response with a JSON body, whatever the body
    says (a [success] of false included), [isSubmitted] becomes true and
    no error is set, and a page that showed the form shows the submitted
    view. *)
Theorem submission_success_ignores_body
    (st : State) (response : Response) (v : JsValue)
    (tbl : list (string * string)) (f : FormView) :
  ok response = true → json response = Some v →
  let st' := handleSubmit_settled (submitForm (Resolved response)) st in
  isSubmitted st' = true
  ∧ error st' = error st
  ∧ (render st = Form f → t st = Some tbl →
     render st' = SubmittedView (tr tbl "success") (tr tbl "successMessage")).
Proof.
  intros Hok Hjson. cbn zeta.
  assert (submitForm (Resolved response) = Return v) as ->.
  { cbn. rewrite Hok. cbn. unfold response_json. by rewrite Hjson. }
  split_and!; [done..|].
  unfold render. cbn. change (t _) with (t st). intros H Ht. rewrite Ht in *.
  destruct (isLoading st); [done|]. by destruct (_ || _).
Qed.

Lemma submission_success_ignores_body_witness :
  let refused :=
    {| ok := true; status := 200;
       json := Some (JObj [ ("success", JBool false);
                            ("message", JStr "Session expired") ]) |} in
  isSubmitted
    (handleSubmit_settled (submitForm (Resolved refused))
       (state (run start Samples.sign_and_submit).1))
  = true.
Proof.
  cbn zeta.
  refine (proj1 (submission_success_ignores_body
                   (state (run start Samples.sign_and_submit).1)
                   {| ok := true; status := 200;
                      json := Some (JObj [ ("success", JBool false);
                                           ("message", JStr "Session expired") ]) |}
                   _ [] (Build_FormView None None None None [] None [] None
                           None None true None None)
                   eq_refl eq_refl)).
Defined.

End FormPageViews.

(** ** The home page over time *)

Module HomeTraces.
Import Api Home.

(** The page waits for at most one call, the one made by the last
    submission; it is loading exactly while it waits, and then it shows
    no result. *)
Definition one_in_flight (p : Page) : Prop :=
  (isLoading (state p) = true ∧ length (awaiting p) = 1
   ∧ result (state p) = None)
  ∨ (isLoading (state p) = false ∧ awaiting p = []).

Lemma step_one_in_flight (p : Page) (ev : Event) :
  one_in_flight p → one_in_flight (step p ev).1.
Proof.
  unfold one_in_flight. intros H.
  destruct ev as [v|v|n| |n fetched]; cbn -[handleSubmit_settled].
  - done.
  - done.
  - by destruct (language_options !! n) as [[v l]|].
  - destruct (submit_disabled (state p)) eqn:Ed; cbn; [exact H|].
    unfold submit_disabled in Ed.
    apply orb_false_elim in Ed as [[El _]%orb_false_elim _].
    destruct H as [(? & _)|(_ & Ha)]; [congruence|].
    left. by rewrite Ha.
  - destruct (awaiting p !! n) as [call|] eqn:En; [|done].
    cbn -[handleSubmit_settled]. right.
    destruct H as [(_ & Hlen & _)|(_ & Ha)]; [|by rewrite Ha in En].
    split; [by destruct (initiateOutboundCall fetched)|].
    destruct (awaiting p) as [|c [|c' l]]; try done.
    by destruct n.
Qed.

(** X17. One call at a time: after any sequence of events the home page
    waits for at most one call of [initiateOutboundCall]; it is loading
    exactly while it waits for one, and while it is loading no result of
    an earlier call is shown. *)
Theorem home_one_call_in_flight (evs : list Event) :
  let p := (run start evs).1 in
  length (awaiting p) ≤ 1
  ∧ (isLoading (state p) = true ↔ awaiting p ≠ [])
  ∧ (isLoading (state p) = true → result (state p) = None).
Proof.
  cbn zeta.
  assert (∀ p, one_in_flight p → one_in_flight (run p evs).1) as Hrun.
  { induction evs as [|ev evs IH]; intros p H; [done|].
    cbn [run]. pose proof (step_one_in_flight p ev H) as H1.
    destruct (step p ev) as [p1 calls1]. specialize (IH p1 H1).
    by destruct (run p1 evs). }
  destruct (Hrun start) as [(Hl & Hn & Hr)|(Hl & Ha)]; [by right|..].
  - split_and!; [lia| |done]. split; [|done].
    intros _ E. by rewrite E in Hn.
  - rewrite Ha, Hl. split_and!; [cbn; lia| |done]. by split.
Qed.

(** X18. A failed call shows one message: however [initiateOutboundCall]
    fails (a response that is not ok, a body that is not JSON, a rejected
    fetch), the result is [success: false] with the message "Failed to
    initiate call. Please try again." and no session id, and the page
    stops loading; nothing of the response is kept. *)
Theorem home_failure_is_generic (st : State) (fetched : FetchOutcome) :
  (∀ v, initiateOutboundCall fetched ≠ Return v) →
  handleSubmit_settled (initiateOutboundCall fetched) st
  = setIsLoading false
      (setResult
         (Some {| success := JBool false;
                  message := JStr "Failed to initiate call. Please try again.";
                  result_sessionId := JUndefined |}) st).
Proof.
  intros H. destruct (initiateOutboundCall fetched) as [v|m]; [|done].
  by destruct (H v).
Qed.

Lemma home_failure_is_generic_witness :
  handleSubmit_settled (initiateOutboundCall (Rejected "NetworkError")) initial
  = handleSubmit_settled
      (initiateOutboundCall (Resolved Samples.expired_response)) initial.
Proof.
  rewrite (home_failure_is_generic initial (Rejected "NetworkError"))
    by discriminate.
  rewrite (home_failure_is_generic initial (Resolved Samples.expired_response))
    by discriminate.
  reflexivity.
Defined.

End HomeTraces.

(** ** Two loads in flight *)

Module FormPageRace.
Import Api SignaturePadComponent FormPage.

(** X20. The effect does not cancel an earlier load. When the session id
    changes from [a] to [b] while the data of [a] is still awaited, and
    the response for [a] arrives after the one for [b], the page is left
    with the data of [a] under the session id [b]; a signature then
    submits for [b]. *)
Theorem late_response_overwrites
    (a b : string) (ra rb : Response) (va vb : JsValue)
    (canvas : SignatureCanvas) :
  a ≠ "" → b ≠ "" → a ≠ b →
  ok ra = true → json ra = Some va → ok rb = true → json rb = Some vb →
  isEmpty canvas = false → toDataURL canvas ≠ "" →
  let p :=
    (run start [ Route (QString a); Route (QString b);
                 Settle 1 (Resolved rb); Settle 0 (Resolved ra) ]).1 in
  sessionId (state p) = QString b
  ∧ formData (state p) = va
  ∧ awaiting p = []
  ∧ (run p [PadEnd (Some canvas); Submit]).2
    = [CallSubmitForm b (Some (toDataURL canvas))].
Proof.
  intros Ha Hb Hab Hoa Hja Hob Hjb Hc Hd. cbn zeta.
  assert (∀ r v, ok r = true → json r = Some v →
                 getFormData (Resolved r) = Return v) as Hget.
  { intros r v Ho Hj. cbn. rewrite Ho. cbn. unfold response_json.
    by rewrite Hj. }
  destruct a as [|ca a]; [done|]. destruct b as [|cb b]; [done|].
  cbn -[getFormData decide].
  destruct (decide (QString (String ca a) = QUndefined)); [done|].
  cbn -[getFormData decide].
  destruct (decide (QString (String cb b) = QString (String ca a)))
    as [[= E1 E2]|_]; [by subst|].
  cbn -[getFormData decide]. rewrite (Hget _ _ Hob Hjb).
  cbn -[getFormData decide]. rewrite (Hget _ _ Hoa Hja).
  cbn. rewrite Hc. cbn.
  destruct (toDataURL canvas) as [|cd d] eqn:Ed; [done|]. done.
Qed.

Lemma late_response_overwrites_witness :
  formData
    (state (run start
              [ Route (QString "3f2a9c1e"); Route (QString "7b1d0e42");
                Settle 1 (Resolved {| ok := true; status := 200;
                                      json := Some (JObj []) |});
                Settle 0 (Resolved Samples.form_data_response) ]).1)
  = Samples.form_data.
Proof.
  refine (proj1 (proj2 (late_response_overwrites
                          "3f2a9c1e" "7b1d0e42" Samples.form_data_response
                          {| ok := true; status := 200;
                             json := Some (JObj []) |}
                          Samples.form_data (JObj []) Samples.signed_canvas
                          _ _ _ eq_refl eq_refl eq_refl eq_refl eq_refl _)));
    discriminate.
Defined.

End FormPageRace.
